(** * ClimatePredict AI: the forecast-resolution pipeline

    A shallow embedding of [climate_ai_app_enhanced.py]: the climate table
    ([get_city_climate_info]), feature construction
    ([create_weather_features]), the two-tier model loader
    ([load_s3_models], [load_local_model], [load_location_model]), the two
    forecast paths ([predict_weather_location],
    [generate_realistic_weather_fallback]) and the risk levels computed in
    [show_enhanced_disaster_risk].

    Conventions.
    - Python and numpy floats are rationals ([Q]) with exact arithmetic,
      except in the sums and means of the risk levels, which are computed in
      binary64 ([Float]); [np.sin], [np.cos] and [np.pi] are variables of the
      sections that use them, and the draws of [np.random.normal] come from
      an explicit generator state.
    - A call on an unpickled scaler or regressor runs in the state of the
      process: it may raise, and it may read and change that state.
    - [dict]s keyed by strings are [gmap string _].
    - [datetime] follows CPython's proleptic Gregorian ordinal arithmetic,
      with its range 0001-01-01 .. 9999-12-31.
    - An exception is a value: code under [try] runs in a small monad that
      carries the log of store accesses and either returns or raises.
    - [print] and the Streamlit calls only display; they are left out. *)

From stdpp Require Import gmap strings list.
From Stdlib Require Import QArith Qround Lqa ZArith Lia Ascii String.

(** ** Numbers *)

Module Num.
Local Open Scope Q_scope.

Definition Qlt_bool (x y : Q) : bool := negb (Qle_bool y x).

(** Python's [max(a, b)]: the first argument unless the second is larger. *)
Definition py_max (a b : Q) : Q := if Qlt_bool a b then b else a.

(** Python's [min(a, b)]: the first argument unless the second is smaller. *)
Definition py_min (a b : Q) : Q := if Qlt_bool b a then b else a.

(** [np.clip(x, lo, hi)] is [minimum(maximum(x, lo), hi)]. *)
Definition np_clip (x lo hi : Q) : Q := py_min (py_max x lo) hi.

(** Rounding to the nearest integer, ties to the even one. *)
Definition round_half_even (x : Q) : Z :=
  let f := Qfloor x in
  let r := x - inject_Z f in
  if Qlt_bool r (1 # 2) then f
  else if Qlt_bool (1 # 2) r then (f + 1)%Z
  else if Z.even f then f else (f + 1)%Z.

(** [round(x, 1)]: the nearest multiple of one tenth. *)
Definition round1 (x : Q) : Q := inject_Z (round_half_even (x * 10)) / 10.

End Num.

(** ** Doubles *)

(** Python's [float] and numpy's [float64]: IEEE 754 binary64. A finite
    value is the rational it holds (the sign of a zero, which no comparison
    sees, is dropped); every operation returns the exact result rounded to
    the nearest value, ties to the even significand, and an infinity when
    that is beyond the largest finite value. *)
Module Float.
Import Num.
Local Open Scope Q_scope.

Inductive float :=
  | Finite (x : Q)
  | Inf (negative : bool)
  | NaN.

Definition pow2 (k : Z) : Q := Qpower 2 k.

(** The exponent [e] with [2^e <= |x| < 2^(e+1)], for [x] other than 0. *)
Definition ilog2 (x : Q) : Z :=
  let n := Z.abs (Qnum x) in
  let k := (Z.log2 n - Z.log2 (Zpos (Qden x)))%Z in
  if Qlt_bool (n # Qden x) (pow2 k) then (k - 1)%Z else k.

(** The nearest rational with a significand of 53 bits over an exponent of
    -1074 and more (the subnormal values at the bottom), ties to even. *)
Definition nearest (x : Q) : Q :=
  if Qeq_bool x 0 then 0
  else
    let q := Z.max (ilog2 x - 52) (-1074) in
    inject_Z (round_half_even (x / pow2 q)) * pow2 q.

(** The largest finite value, [(2^53 - 1) * 2^971]. *)
Definition MAX : Q := (pow2 53 - 1) * pow2 971.

Definition round (x : Q) : float :=
  let r := nearest x in
  if Qlt_bool MAX r then Inf false
  else if Qlt_bool r (- MAX) then Inf true
  else Finite r.

(** [a + b]. *)
Definition add (a b : float) : float :=
  match a, b with
  | NaN, _ | _, NaN => NaN
  | Finite x, Finite y => round (x + y)
  | Inf s, Finite _ | Finite _, Inf s => Inf s
  | Inf s, Inf s' => if Bool.eqb s s' then Inf s else NaN
  end.

(** [a / n] for a count [n], a positive integer below [2^53]. *)
Definition div (a : float) (n : Q) : float :=
  match a with
  | Finite x => round (x / n)
  | Inf s => Inf s
  | NaN => NaN
  end.

(** [a > k] and [a < k] for an integer [k]; a NaN compares false. *)
Definition gt (a : float) (k : Q) : bool :=
  match a with
  | Finite x => Qlt_bool k x
  | Inf s => negb s
  | NaN => false
  end.

Definition lt (a : float) (k : Q) : bool :=
  match a with
  | Finite x => Qlt_bool x k
  | Inf s => s
  | NaN => false
  end.

End Float.

(** ** Strings *)

Module Str.
Local Open Scope string_scope.

Definition ascii_lower (c : ascii) : ascii :=
  let n := nat_of_ascii c in
  if ((65 <=? n) && (n <=? 90))%nat then ascii_of_nat (n + 32) else c.

(** [s.lower()], on the ASCII letters. *)
Fixpoint lower (s : string) : string :=
  match s with
  | EmptyString => EmptyString
  | String c t => String (ascii_lower c) (lower t)
  end.

(** [needle in hay] for two strings. *)
Fixpoint contains (needle hay : string) : bool :=
  String.prefix needle hay ||
  match hay with
  | EmptyString => false
  | String _ t => contains needle t
  end.

(** [s.replace(a, b)] for one-character [a] and [b]. *)
Fixpoint replace (a b : ascii) (s : string) : string :=
  match s with
  | EmptyString => EmptyString
  | String c t => String (if Ascii.eqb c a then b else c) (replace a b t)
  end.

Definition digit_of_Z (n : Z) : ascii := ascii_of_nat (48 + Z.to_nat n).

Definition Z_of_digit (c : ascii) : option Z :=
  let n := nat_of_ascii c in
  if ((48 <=? n) && (n <=? 57))%nat then Some (Z.of_nat (n - 48)) else None.

End Str.

(** ** Calendar dates, after CPython's [datetime] *)

Module Calendar.
Local Open Scope Z_scope.

Record date := mkdate { year : Z; month : Z; day : Z }.

Definition _is_leap (y : Z) : bool :=
  (y mod 4 =? 0) && (negb (y mod 100 =? 0) || (y mod 400 =? 0)).

Definition _days_before_year (y : Z) : Z :=
  let p := y - 1 in p * 365 + p / 4 - p / 100 + p / 400.

Definition _DAYS_IN_MONTH (m : Z) : Z :=
  match m with
  | 1 => 31 | 2 => 28 | 3 => 31 | 4 => 30 | 5 => 31 | 6 => 30
  | 7 => 31 | 8 => 31 | 9 => 30 | 10 => 31 | 11 => 30 | 12 => 31
  | _ => -1
  end.

Definition _DAYS_BEFORE_MONTH (m : Z) : Z :=
  match m with
  | 1 => 0 | 2 => 31 | 3 => 59 | 4 => 90 | 5 => 120 | 6 => 151
  | 7 => 181 | 8 => 212 | 9 => 243 | 10 => 273 | 11 => 304 | 12 => 334
  | _ => -1
  end.

Definition _days_in_month (y m : Z) : Z :=
  if (m =? 2) && _is_leap y then 29 else _DAYS_IN_MONTH m.

Definition _days_before_month (y m : Z) : Z :=
  _DAYS_BEFORE_MONTH m + (if (2 <? m) && _is_leap y then 1 else 0).

Definition _ymd2ord (y m d : Z) : Z :=
  _days_before_year y + _days_before_month y m + d.

Definition _DI400Y : Z := 146097.
Definition _DI100Y : Z := 36524.
Definition _DI4Y : Z := 1461.

(** The month and the day of the month of the [n]-th day of a year, counted
    from 0: the closing steps of [_ord2ymd]. *)
Definition _month_day (leapyear : bool) (n : Z) : Z * Z :=
  let m := Z.shiftr (n + 50) 5 in
  let preceding := _DAYS_BEFORE_MONTH m + (if (2 <? m) && leapyear then 1 else 0) in
  let '(m, preceding) :=
    if n <? preceding
    then (m - 1,
          preceding - (_DAYS_IN_MONTH (m - 1) + (if (m - 1 =? 2) && leapyear then 1 else 0)))
    else (m, preceding) in
  (m, n - preceding + 1).

Definition _ord2ymd (n : Z) : date :=
  let n := n - 1 in
  let n400 := n / _DI400Y in
  let n := n mod _DI400Y in
  let y := n400 * 400 + 1 in
  let n100 := n / _DI100Y in
  let n := n mod _DI100Y in
  let n4 := n / _DI4Y in
  let n := n mod _DI4Y in
  let n1 := n / 365 in
  let n := n mod 365 in
  let y := y + n100 * 100 + n4 * 4 + n1 in
  if (n1 =? 4) || (n100 =? 4) then mkdate (y - 1) 12 31
  else
    let leapyear := (n1 =? 3) && (negb (n4 =? 24) || (n100 =? 3)) in
    let '(m, d) := _month_day leapyear n in
    mkdate y m d.

Definition _MAXORDINAL : Z := 3652059.

Definition toordinal (d : date) : Z := _ymd2ord (year d) (month d) (day d).
Definition fromordinal (n : Z) : date := _ord2ymd n.

(** [d.weekday()]: Monday is 0. *)
Definition weekday (d : date) : Z := (toordinal d + 6) mod 7.

(** [d.timetuple().tm_yday]. *)
Definition tm_yday (d : date) : Z := _days_before_month (year d) (month d) + day d.

(** The dates [datetime] can hold. *)
Definition valid (d : date) : bool :=
  (1 <=? year d) && (year d <=? 9999) && (1 <=? month d) && (month d <=? 12) &&
  (1 <=? day d) && (day d <=? _days_in_month (year d) (month d)).

(** [d + timedelta(days=i)]; [None] is the OverflowError raised when the
    result leaves the range of [datetime]. *)
Definition add_days (d : date) (i : Z) : option date :=
  let o := toordinal d + i in
  if (1 <=? o) && (o <=? _MAXORDINAL) then Some (fromordinal o) else None.

Import Str.

Definition pad2 (n : Z) : string :=
  String (digit_of_Z (n / 10)) (String (digit_of_Z (n mod 10)) EmptyString).

Definition pad4 (n : Z) : string :=
  String (digit_of_Z (n / 1000)) (String (digit_of_Z (n / 100 mod 10))
    (String (digit_of_Z (n / 10 mod 10)) (String (digit_of_Z (n mod 10)) EmptyString))).

(** [d.strftime('%Y-%m-%d')]. *)
Definition strftime (d : date) : string :=
  (pad4 (year d) ++ "-" ++ pad2 (month d) ++ "-" ++ pad2 (day d))%string.

Definition num2 (a b : ascii) : option Z :=
  match Z_of_digit a, Z_of_digit b with
  | Some x, Some y => Some (10 * x + y)
  | _, _ => None
  end.

Definition num4 (a b c d : ascii) : option Z :=
  match num2 a b, num2 c d with
  | Some x, Some y => Some (100 * x + y)
  | _, _ => None
  end.

(** [datetime.strptime(s, '%Y-%m-%d')] on the zero-padded form that
    [strftime] writes; [None] is the ValueError for any other text and for
    a day that is not in the calendar. *)
Definition strptime (s : string) : option date :=
  match s with
  | String y1 (String y2 (String y3 (String y4 (String "-"%char
      (String m1 (String m2 (String "-"%char
        (String d1 (String d2 EmptyString))))))))) =>
      match num4 y1 y2 y3 y4, num2 m1 m2, num2 d1 d2 with
      | Some y, Some m, Some d =>
          let r := mkdate y m d in if valid r then Some r else None
      | _, _, _ => None
      end
  | _ => None
  end.

End Calendar.

(** ** The climate table *)

Module Climate.
Local Open Scope Q_scope.
Local Open Scope string_scope.

(** One entry of [climate_data]. *)
Record profile := mkprofile {
  avg_temp : Q; avg_humidity : Q; avg_pressure : Q;
  cloud_cover : Q; visibility : Q; wind_direction : Q;
  wind_speed : Q; latitude : Q; longitude : Q;
  climate_type : string; temp_range : string;
  monsoon_season : string; humidity_range : string;
  wind_patterns : string; special_features : string }.

Definition climate_entries : list (string * profile) :=
  [ ("new_delhi",
     {| avg_temp := 25.0; avg_humidity := 65; avg_pressure := 1013.25;
        cloud_cover := 40; visibility := 10; wind_direction := 180;
        wind_speed := 5.0; latitude := 28.6139; longitude := 77.2090;
        climate_type := "Tropical Monsoon"; temp_range := "15°C - 45°C";
        monsoon_season := "June - September"; humidity_range := "40% - 90%";
        wind_patterns := "Variable with monsoon"; special_features := "Extreme summer heat, monsoon rains" |});
    ("noida",
     {| avg_temp := 26.0; avg_humidity := 68; avg_pressure := 1012.5;
        cloud_cover := 45; visibility := 11; wind_direction := 185;
        wind_speed := 6.5; latitude := 28.5355; longitude := 77.3910;
        climate_type := "Tropical Monsoon"; temp_range := "16°C - 44°C";
        monsoon_season := "June - September"; humidity_range := "45% - 85%";
        wind_patterns := "Variable with monsoon"; special_features := "NCR region, industrial hub" |});
    ("mumbai",
     {| avg_temp := 27.0; avg_humidity := 75; avg_pressure := 1012.0;
        cloud_cover := 60; visibility := 8; wind_direction := 225;
        wind_speed := 8.0; latitude := 19.0760; longitude := 72.8777;
        climate_type := "Tropical Wet and Dry"; temp_range := "20°C - 40°C";
        monsoon_season := "June - September"; humidity_range := "60% - 95%";
        wind_patterns := "Sea breeze, monsoon winds"; special_features := "Coastal climate, high humidity" |});
    ("bangalore",
     {| avg_temp := 23.0; avg_humidity := 70; avg_pressure := 1014.0;
        cloud_cover := 50; visibility := 12; wind_direction := 270;
        wind_speed := 6.0; latitude := 12.9716; longitude := 77.5946;
        climate_type := "Temperate"; temp_range := "15°C - 35°C";
        monsoon_season := "June - September"; humidity_range := "45% - 80%";
        wind_patterns := "Gentle breezes"; special_features := "Pleasant weather, educational hub" |});
    ("kolkata",
     {| avg_temp := 26.0; avg_humidity := 80; avg_pressure := 1011.0;
        cloud_cover := 70; visibility := 6; wind_direction := 135;
        wind_speed := 7.0; latitude := 22.5726; longitude := 88.3639;
        climate_type := "Tropical Monsoon"; temp_range := "18°C - 38°C";
        monsoon_season := "June - September"; humidity_range := "65% - 95%";
        wind_patterns := "Monsoon winds"; special_features := "Delta region, high humidity" |});
    ("chennai",
     {| avg_temp := 28.0; avg_humidity := 75; avg_pressure := 1010.0;
        cloud_cover := 55; visibility := 9; wind_direction := 90;
        wind_speed := 9.0; latitude := 13.0827; longitude := 80.2707;
        climate_type := "Tropical Wet and Dry"; temp_range := "22°C - 38°C";
        monsoon_season := "October - December"; humidity_range := "55% - 90%";
        wind_patterns := "Coastal winds"; special_features := "Coastal city, diamond hub" |});
    ("hyderabad",
     {| avg_temp := 26.0; avg_humidity := 65; avg_pressure := 1012.5;
        cloud_cover := 45; visibility := 11; wind_direction := 200;
        wind_speed := 7.5; latitude := 17.3850; longitude := 78.4867;
        climate_type := "Tropical Monsoon"; temp_range := "18°C - 40°C";
        monsoon_season := "June - September"; humidity_range := "45% - 80%";
        wind_patterns := "Variable with monsoon"; special_features := "Deccan plateau, moderate climate" |});
    ("pune",
     {| avg_temp := 24.0; avg_humidity := 60; avg_pressure := 1013.5;
        cloud_cover := 40; visibility := 13; wind_direction := 250;
        wind_speed := 6.5; latitude := 18.5204; longitude := 73.8567;
        climate_type := "Temperate"; temp_range := "15°C - 35°C";
        monsoon_season := "June - September"; humidity_range := "45% - 80%";
        wind_patterns := "Gentle breezes"; special_features := "Pleasant weather, educational hub" |});
    ("ahmedabad",
     {| avg_temp := 26.5; avg_humidity := 55; avg_pressure := 1014.0;
        cloud_cover := 35; visibility := 14; wind_direction := 220;
        wind_speed := 8.5; latitude := 23.0225; longitude := 72.5714;
        climate_type := "Semi-arid"; temp_range := "18°C - 42°C";
        monsoon_season := "June - September"; humidity_range := "35% - 75%";
        wind_patterns := "Variable with monsoon"; special_features := "Gujarat climate, textile city" |});
    ("jaipur",
     {| avg_temp := 25.5; avg_humidity := 50; avg_pressure := 1013.0;
        cloud_cover := 30; visibility := 15; wind_direction := 240;
        wind_speed := 7.0; latitude := 26.9124; longitude := 75.7873;
        climate_type := "Semi-arid"; temp_range := "12°C - 45°C";
        monsoon_season := "July - September"; humidity_range := "30% - 70%";
        wind_patterns := "Hot winds in summer"; special_features := "Desert climate, pink city" |});
    ("lucknow",
     {| avg_temp := 25.5; avg_humidity := 70; avg_pressure := 1012.0;
        cloud_cover := 50; visibility := 10; wind_direction := 190;
        wind_speed := 6.0; latitude := 26.8467; longitude := 80.9462;
        climate_type := "Tropical Monsoon"; temp_range := "18°C - 42°C";
        monsoon_season := "June - September"; humidity_range := "45% - 85%";
        wind_patterns := "Variable with monsoon"; special_features := "Hot summers, moderate winters" |});
    ("kanpur",
     {| avg_temp := 26.0; avg_humidity := 72; avg_pressure := 1011.5;
        cloud_cover := 55; visibility := 9; wind_direction := 195;
        wind_speed := 7.2; latitude := 26.4499; longitude := 80.3319;
        climate_type := "Tropical Monsoon"; temp_range := "18°C - 43°C";
        monsoon_season := "June - September"; humidity_range := "50% - 88%";
        wind_patterns := "Variable with monsoon"; special_features := "Industrial city, leather hub" |});
    ("varanasi",
     {| avg_temp := 26.5; avg_humidity := 70; avg_pressure := 1011.0;
        cloud_cover := 50; visibility := 10; wind_direction := 200;
        wind_speed := 6.8; latitude := 25.3176; longitude := 82.9739;
        climate_type := "Tropical Monsoon"; temp_range := "19°C - 42°C";
        monsoon_season := "June - September"; humidity_range := "45% - 85%";
        wind_patterns := "Variable with monsoon"; special_features := "Spiritual city, cultural hub" |});
    ("ghaziabad",
     {| avg_temp := 25.8; avg_humidity := 67; avg_pressure := 1012.8;
        cloud_cover := 42; visibility := 11; wind_direction := 182;
        wind_speed := 6.2; latitude := 28.6692; longitude := 77.4538;
        climate_type := "Tropical Monsoon"; temp_range := "16°C - 43°C";
        monsoon_season := "June - September"; humidity_range := "42% - 87%";
        wind_patterns := "Variable with monsoon"; special_features := "NCR region, industrial city" |});
    ("meerut",
     {| avg_temp := 25.2; avg_humidity := 69; avg_pressure := 1013.2;
        cloud_cover := 44; visibility := 10; wind_direction := 188;
        wind_speed := 6.8; latitude := 28.9845; longitude := 77.7064;
        climate_type := "Tropical Monsoon"; temp_range := "15°C - 44°C";
        monsoon_season := "June - September"; humidity_range := "45% - 86%";
        wind_patterns := "Variable with monsoon"; special_features := "NCR region, sports goods hub" |});
    ("allahabad",
     {| avg_temp := 26.8; avg_humidity := 71; avg_pressure := 1010.8;
        cloud_cover := 52; visibility := 9; wind_direction := 205;
        wind_speed := 7.5; latitude := 25.4358; longitude := 81.8463;
        climate_type := "Tropical Monsoon"; temp_range := "18°C - 43°C";
        monsoon_season := "June - September"; humidity_range := "48% - 88%";
        wind_patterns := "Variable with monsoon"; special_features := "Sangam city, educational hub" |});
    ("agra",
     {| avg_temp := 26.2; avg_humidity := 65; avg_pressure := 1012.5;
        cloud_cover := 38; visibility := 12; wind_direction := 210;
        wind_speed := 6.5; latitude := 27.1767; longitude := 78.0081;
        climate_type := "Tropical Monsoon"; temp_range := "17°C - 42°C";
        monsoon_season := "June - September"; humidity_range := "40% - 82%";
        wind_patterns := "Variable with monsoon"; special_features := "Taj city, tourism hub" |});
    ("bareilly",
     {| avg_temp := 25.5; avg_humidity := 68; avg_pressure := 1013.0;
        cloud_cover := 45; visibility := 10; wind_direction := 195;
        wind_speed := 6.8; latitude := 28.3670; longitude := 79.4304;
        climate_type := "Tropical Monsoon"; temp_range := "16°C - 43°C";
        monsoon_season := "June - September"; humidity_range := "42% - 85%";
        wind_patterns := "Variable with monsoon"; special_features := "Rohilkhand region, agricultural hub" |});
    ("default",
     {| avg_temp := 25.0; avg_humidity := 65; avg_pressure := 1013.25;
        cloud_cover := 40; visibility := 10; wind_direction := 180;
        wind_speed := 5.0; latitude := 28.6139; longitude := 77.2090;
        climate_type := "Tropical Monsoon"; temp_range := "15°C - 45°C";
        monsoon_season := "June - September"; humidity_range := "40% - 90%";
        wind_patterns := "Variable with monsoon"; special_features := "Default climate data" |}) ].

Definition climate_data : gmap string profile := list_to_map climate_entries.

Definition profile_default : profile :=
  {| avg_temp := 25.0; avg_humidity := 65; avg_pressure := 1013.25;
     cloud_cover := 40; visibility := 10; wind_direction := 180;
     wind_speed := 5.0; latitude := 28.6139; longitude := 77.2090;
     climate_type := "Tropical Monsoon"; temp_range := "15°C - 45°C";
     monsoon_season := "June - September"; humidity_range := "40% - 90%";
     wind_patterns := "Variable with monsoon"; special_features := "Default climate data" |}.

(** [climate_data.get(city, climate_data['default'])]; [profile_default] is
    the entry under the key ["default"] (lemma [climate_data_default]). *)
Definition get_city_climate_info (city : string) : profile :=
  match climate_data !! city with
  | Some p => p
  | None => profile_default
  end.

(** The three tests on [climate_info['climate_type'].lower()]. *)
Definition is_tropical (p : profile) : bool := Str.contains "tropical" (Str.lower (climate_type p)).
Definition is_arid (p : profile) : bool := Str.contains "arid" (Str.lower (climate_type p)).
Definition is_temperate (p : profile) : bool := Str.contains "temperate" (Str.lower (climate_type p)).

End Climate.

(** ** Exceptions and mutable state *)

Module Py.

(** The exception classes the modelled code can meet. [NoSuchKey] is
    [s3_client.exceptions.NoSuchKey]; all of them derive from [Exception]. *)
Inductive exn :=
  | NoSuchKey | ClientError | OSError | JSONDecodeError | UnpicklingError
  | OverflowError | ValueError | ZeroDivisionError.

Inductive outcome (A : Type) :=
  | Ret (a : A)
  | Raise (e : exn).
Arguments Ret {A} a.
Arguments Raise {A} e.

(** A computation over a mutable state [S]: it returns or raises, and the
    state it leaves is kept in both cases. *)
Definition M (S A : Type) : Type := S -> outcome A * S.

Definition ret {S A} (a : A) : M S A := fun s => (Ret a, s).
Definition raise {S A} (e : exn) : M S A := fun s => (Raise e, s).

Definition bind {S A B} (m : M S A) (k : A -> M S B) : M S B :=
  fun s =>
    match m s with
    | (Ret a, s') => k a s'
    | (Raise e, s') => (Raise e, s')
    end.

Definition get {S} : M S S := fun s => (Ret s, s).
Definition modify {S} (f : S -> S) : M S unit := fun s => (Ret tt, f s).

(** Lift a call that returns or raises without touching the state. *)
Definition lift {S A} (o : outcome A) : M S A := fun s => (o, s).

(** [try: body / except <classes>: handler]. *)
Definition try_except {S A} (body : M S A) (classes : exn -> bool)
    (handler : exn -> M S A) : M S A :=
  fun s =>
    match body s with
    | (Raise e, s') => if classes e then handler e s' else (Raise e, s')
    | r => r
    end.

(** [except Exception]. *)
Definition Exception (e : exn) : bool := true.

Definition is_NoSuchKey (e : exn) : bool :=
  match e with NoSuchKey => true | _ => false end.

Declare Scope py_scope.
Delimit Scope py_scope with py.
Notation "'do' x <- m ; k" := (bind m (fun x => k))
  (at level 10, x name, m at level 100, k at level 200) : py_scope.
Notation "'exec' m ; k" := (bind m (fun _ => k))
  (at level 10, m at level 100, k at level 200) : py_scope.

Local Open Scope py_scope.

(** [for x in xs: body x]. *)
Fixpoint for_each {S A} (xs : list A) (body : A -> M S unit) : M S unit :=
  match xs with
  | [] => ret tt
  | x :: xs' => exec body x; for_each xs' body
  end.

(** A loop whose body appends one element to a local list. *)
Fixpoint for_append {S A B} (xs : list A) (body : A -> M S B) : M S (list B) :=
  match xs with
  | [] => ret []
  | x :: xs' => do y <- body x; do ys <- for_append xs' body; ret (y :: ys)
  end.

(** [range(n)]. *)
Definition range (n : Z) : list Z := map Z.of_nat (seq 0 (Z.to_nat n)).

End Py.

(** ** The libraries the code calls *)

(** numpy: the two trigonometric functions, the constant [np.pi], and the
    global generator behind [np.random.normal(loc, scale)]. *)
Class Numpy := {
  np_sin : Q -> Q;
  np_cos : Q -> Q;
  np_pi : Q;
  Generator : Type;
  np_random_normal : Q -> Q -> Generator -> Q * Generator }.

(** joblib and json: what a stored artifact deserialises to. A loaded object
    answers [transform] (a scaler) and [predict] (a regressor, whose answer
    is [predict(...)[0]]) on one feature row. Such a call runs the code of
    the object: it may raise, and it may read and change [process], the
    state of the interpreter behind the program (the attributes of the
    objects, the global generator of numpy). *)
Class Artifacts := {
  pyobj : Type;
  model_info_t : Type;
  process : Type;
  transform : pyobj -> list Q -> Py.M process (list Q);
  predict : pyobj -> list Q -> Py.M process Q;
  joblib_load : string -> Py.outcome pyobj;
  json_loads : string -> Py.outcome model_info_t }.

(** ** Feature construction *)

Section Features.
Context `{Numpy}.
Local Open Scope Q_scope.
Import Calendar Climate.

(** The local variables that [create_weather_features] fills from the
    profile or from its fixed defaults. *)
Record baseline := mkbaseline {
  b_avg_temp : Q; b_avg_humidity : Q; b_avg_pressure : Q; b_wind_speed : Q;
  b_cloud_cover : Q; b_visibility : Q; b_wind_direction : Q;
  b_latitude : Q; b_longitude : Q }.

Definition default_baseline : baseline :=
  mkbaseline 25 65 1013 10 50 10 180 28.6139 77.2090.

Definition baseline_of_profile (p : profile) : baseline :=
  mkbaseline (avg_temp p) (avg_humidity p) (avg_pressure p) (wind_speed p)
             (cloud_cover p) (visibility p) (wind_direction p)
             (latitude p) (longitude p).

(** [if city_name:] holds for a string that is not empty. The [except]
    branch of the lookup assigns [default_baseline] too; the lookup itself
    cannot raise on a string. *)
Definition resolve_baseline (city_name : option string) : baseline :=
  match city_name with
  | Some (String c s) => baseline_of_profile (get_city_climate_info (String c s))
  | Some EmptyString | None => default_baseline
  end.

Definition create_weather_features (date_obj : date) (city_name : option string) : list Q :=
  let day_of_year := inject_Z (tm_yday date_obj) in
  let b := resolve_baseline city_name in
  [ inject_Z (month date_obj);
    inject_Z (day date_obj);
    inject_Z (weekday date_obj);
    np_sin (2 * np_pi * day_of_year / 365.25);
    np_cos (2 * np_pi * day_of_year / 365.25);
    np_sin (4 * np_pi * day_of_year / 365.25);
    np_cos (4 * np_pi * day_of_year / 365.25);
    np_sin (2 * np_pi * 12 / 24);
    np_cos (2 * np_pi * 12 / 24);
    b_avg_temp b * b_avg_humidity b / 100;
    b_avg_pressure b / b_avg_temp b;
    b_cloud_cover b;
    b_visibility b;
    b_wind_direction b;
    b_avg_temp b;
    b_avg_pressure b;
    b_wind_speed b;
    day_of_year;
    12;
    b_latitude b;
    b_longitude b ].

End Features.

(** ** The model stores and the two-tier loader *)

(** What the process can reach: the S3 service and the local file system.
    Every call may raise. *)
Record world := {
  boto3_client : Py.outcome unit;
  s3_get_object : string -> string -> Py.outcome string;
  os_path_exists : string -> bool;
  read_file : string -> Py.outcome string }.

(** The accesses a run makes, in order. *)
Inductive event :=
  | Boto3Client
  | S3GetObject (bucket key : string)
  | PathExists (path : string)
  | ReadFile (path : string).

Definition is_remote (e : event) : bool :=
  match e with
  | Boto3Client | S3GetObject _ _ => true
  | PathExists _ | ReadFile _ => false
  end.

Definition TARGETS : list string :=
  ["temperature"; "humidity"; "pressure"; "wind_speed"]%string.

Section Loader.
Context `{Artifacts}.
Import Py.
Local Open Scope py_scope.
Local Open Scope string_scope.

(** The dictionary both tiers return. *)
Record bundle := mkbundle {
  models : gmap string pyobj;
  scalers : gmap string pyobj;
  model_info : model_info_t;
  city : string }.

(** The locals of one run of a tier, and the access log. *)
Record frame := mkframe {
  f_trace : list event;
  f_models : gmap string pyobj;
  f_scalers : gmap string pyobj }.

Definition log (e : event) : M frame unit :=
  modify (fun st => mkframe (f_trace st ++ [e]) (f_models st) (f_scalers st)).

Definition set_model (k : string) (v : pyobj) : M frame unit :=
  modify (fun st => mkframe (f_trace st) (<[k := v]> (f_models st)) (f_scalers st)).

Definition set_scaler (k : string) (v : pyobj) : M frame unit :=
  modify (fun st => mkframe (f_trace st) (f_models st) (<[k := v]> (f_scalers st))).

Definition bucket_name : string := "climatepredict-models-ge9t4296".

Variable w : world.

(** [s3_client.get_object(Bucket=bucket_name, Key=key)['Body'].read()]. *)
Definition get_object (key : string) : M frame string :=
  exec log (S3GetObject bucket_name key);
  lift (s3_get_object w bucket_name key).

Definition exists_ (path : string) : M frame bool :=
  exec log (PathExists path);
  ret (os_path_exists w path).

(** Reading a whole file: [open(path)] and [joblib.load(path)] start so. *)
Definition read (path : string) : M frame string :=
  exec log (ReadFile path);
  lift (read_file w path).

Definition load_s3_models (city_name : string) : M frame (option bundle) :=
  try_except
    (exec log Boto3Client;
     exec lift (boto3_client w);
     let s3_city_name := Str.replace "_" " " city_name in
     let prefix := "models/" ++ s3_city_name ++ "/" in
     let info_file := prefix ++ "model_info_" ++ s3_city_name ++ ".json" in
     do found <- try_except
                   (do body <- get_object info_file;
                    do model_info <- lift (json_loads body);
                    ret (Some model_info))
                   is_NoSuchKey (fun _ => ret None);
     match found with
     | None => ret None
     | Some model_info =>
         exec for_each TARGETS (fun target =>
           let model_key := prefix ++ target ++ "_rf.joblib" in
           let scaler_key := prefix ++ target ++ "_scaler.joblib" in
           try_except
             (do model_data <- get_object model_key;
              do model <- lift (joblib_load model_data);
              exec set_model (target ++ "_rf") model;
              do scaler_data <- get_object scaler_key;
              do scaler <- lift (joblib_load scaler_data);
              set_scaler target scaler)
             is_NoSuchKey (fun _ => ret tt));
         do st <- get;
         if bool_decide (f_models st = ∅) then ret None
         else ret (Some (mkbundle (f_models st) (f_scalers st) model_info city_name))
     end)
    Exception (fun _ => ret None).

Definition load_local_model (city_name : string) : M frame (option bundle) :=
  try_except
    (let city_formatted := Str.replace " " "_" (Str.lower city_name) in
     let model_dir := "models/" ++ city_formatted ++ "/" in
     do dir_found <- exists_ model_dir;
     if negb dir_found then ret None else
     let info_file := model_dir ++ "model_info_" ++ city_name ++ ".json" in
     do info_found <- exists_ info_file;
     if negb info_found then ret None else
     do text <- read info_file;
     do model_info <- lift (json_loads text);
     exec for_each TARGETS (fun target =>
       let model_file := model_dir ++ target ++ "_rf.joblib" in
       let scaler_file := model_dir ++ target ++ "_scaler.joblib" in
       do has_model <- exists_ model_file;
       do has_both <- (if has_model then exists_ scaler_file else ret false);
       if has_both then
         do model_data <- read model_file;
         do model <- lift (joblib_load model_data);
         exec set_model (target ++ "_rf") model;
         do scaler_data <- read scaler_file;
         do scaler <- lift (joblib_load scaler_data);
         set_scaler target scaler
       else ret tt);
     do st <- get;
     if bool_decide (f_models st = ∅) then ret None
     else ret (Some (mkbundle (f_models st) (f_scalers st) model_info city_name)))
    Exception (fun _ => ret None).

(** Calling a tier: it runs with locals of its own ([models = {}],
    [scalers = {}]) and leaves only its accesses behind. *)
Definition call {A} (tier : M frame A) : M (list event) A :=
  fun tr =>
    let '(r, st) := tier (mkframe tr ∅ ∅) in (r, f_trace st).

(** [if s3_model_data:] holds for every bundle, a dictionary of four keys. *)
Definition load_location_model (city_name : string) : M (list event) (option bundle) :=
  try_except
    (do s3_model_data <- call (load_s3_models city_name);
     match s3_model_data with
     | Some b => ret (Some b)
     | None =>
         do local_model_data <- call (load_local_model city_name);
         match local_model_data with
         | Some b => ret (Some b)
         | None => ret None
         end
     end)
    Exception (fun _ => ret None).

(** The targets a bundle can serve: [predict_weather_location] uses a target
    when its regressor is in [models] and its scaler is in [scalers]. *)
Definition has_regressor (b : bundle) (target : string) : bool :=
  bool_decide (is_Some (models b !! (target ++ "_rf"))).
Definition has_scaler (b : bundle) (target : string) : bool :=
  bool_decide (is_Some (scalers b !! target)).
Definition usable_targets (b : bundle) : list string :=
  filter (fun t => has_regressor b t && has_scaler b t) TARGETS.

End Loader.

(** ** The two forecast paths *)

(** One day of a forecast: the dictionary with the keys ['date'],
    ['temperature'], ['humidity'], ['pressure'] and ['wind_speed']. *)
Record ForecastDay := mkday {
  date : string;
  temperature : Q;
  humidity : Q;
  pressure : Q;
  wind_speed : Q }.

Section Forecast.
Context `{Numpy} `{Artifacts}.
Import Py Num.
Local Open Scope py_scope.
Local Open Scope string_scope.
Local Open Scope Q_scope.

Definition of_option {S A} (e : exn) (o : option A) : M S A :=
  match o with
  | Some a => ret a
  | None => raise e
  end.

(** [datetime.now()] is the argument [now]. The run is in the state of the
    process, which the calls on the scalers and regressors may use. *)
Definition predict_weather_location (now : Calendar.date)
    (_model_data : option bundle) (days : Z) : M process (option (list ForecastDay)) :=
  try_except
    (match _model_data with
     | None => ret None
     | Some md =>
         let models := models md in
         let scalers := scalers md in
         let city_name := city md in
         if bool_decide (models = ∅) || bool_decide (scalers = ∅) then ret None else
         do future_dates <- for_append (range days) (fun i =>
           do future_date <- of_option OverflowError (Calendar.add_days now i);
           ret (Calendar.strftime future_date));
         do predictions <- for_append future_dates (fun date_str =>
           do date_obj <- of_option ValueError (Calendar.strptime date_str);
           let features := create_weather_features date_obj (Some city_name) in
           do temperature' <-
             match models !! "temperature_rf", scalers !! "temperature" with
             | Some rf, Some sc =>
                 do temp_scaled <- transform sc features;
                 do temp_pred <- predict rf temp_scaled;
                 ret (round1 temp_pred)
             | _, _ => ret 0
             end;
           do humidity' <-
             match models !! "humidity_rf", scalers !! "humidity" with
             | Some rf, Some sc =>
                 do humidity_scaled <- transform sc features;
                 do humidity_pred <- predict rf humidity_scaled;
                 ret (round1 (py_max 0 (py_min 100 humidity_pred)))
             | _, _ => ret 0
             end;
           do pressure' <-
             match models !! "pressure_rf", scalers !! "pressure" with
             | Some rf, Some sc =>
                 do pressure_scaled <- transform sc features;
                 do pressure_pred <- predict rf pressure_scaled;
                 ret (round1 pressure_pred)
             | _, _ => ret 0
             end;
           do wind_speed' <-
             match models !! "wind_speed_rf", scalers !! "wind_speed" with
             | Some rf, Some sc =>
                 do wind_scaled <- transform sc features;
                 do wind_pred <- predict rf wind_scaled;
                 ret (round1 (py_max 0 wind_pred))
             | _, _ => ret 0
             end;
           ret {| date := date_str;
                  temperature := temperature';
                  humidity := humidity';
                  pressure := pressure';
                  wind_speed := wind_speed' |});
         ret (Some predictions)
     end)
    Exception (fun _ => ret None).

(** [np.random.normal(loc, scale)]: one draw, advancing the generator. *)
Definition normal (loc scale : Q) : M Generator Q :=
  fun g => let '(x, g') := np_random_normal loc scale g in (Ret x, g').

(** The [if]/[elif] chain on the climate type; the result is
    [(daily_temp, daily_humidity)]. *)
Definition climate_adjust (climate_info : Climate.profile)
    (daily_temp daily_humidity : Q) : Q * Q :=
  if Climate.is_tropical climate_info then
    (np_clip daily_temp 22 38, py_max daily_humidity 60)
  else if Climate.is_arid climate_info then
    (np_clip daily_temp 25 45, py_min daily_humidity 50)
  else if Climate.is_temperate climate_info then
    (np_clip daily_temp 15 35, np_clip daily_humidity 40 80)
  else (daily_temp, daily_humidity).

Definition generate_realistic_weather_fallback (now : Calendar.date)
    (city : string) (days : Z) : M Generator (option (list ForecastDay)) :=
  try_except
    (let climate_info := Climate.get_city_climate_info city in
     do weather_data <- for_append (range days) (fun i =>
       do date <- of_option OverflowError (Calendar.add_days now i);
       let day_of_year := inject_Z (Calendar.tm_yday date) in
       let seasonal_factor := np_sin (2 * np_pi * day_of_year / 365.25) in
       let base_temp := Climate.avg_temp climate_info in
       let temp_variation := 8 * seasonal_factor in
       do noise_temp <- normal 0 2;
       let daily_temp := base_temp + temp_variation + noise_temp in
       let base_humidity := Climate.avg_humidity climate_info in
       let humidity_variation := -10 * seasonal_factor in
       do noise_humidity <- normal 0 5;
       let daily_humidity := base_humidity + humidity_variation + noise_humidity in
       let base_pressure := Climate.avg_pressure climate_info in
       do noise_pressure <- normal 0 3;
       let daily_pressure := base_pressure + noise_pressure in
       let base_wind := Climate.wind_speed climate_info in
       do noise_wind <- normal 0 2;
       let daily_wind := base_wind + noise_wind in
       let '(daily_temp, daily_humidity) :=
         climate_adjust climate_info daily_temp daily_humidity in
       ret {| date := Calendar.strftime date;
              temperature := round1 (np_clip daily_temp 15 45);
              humidity := round1 (np_clip daily_humidity 20 95);
              pressure := round1 (np_clip daily_pressure 980 1020);
              wind_speed := round1 (np_clip daily_wind 0 20) |});
     ret (Some weather_data))
    Exception (fun _ => ret None).

End Forecast.

(** ** Risk levels *)

Module Risk.
Import Num.
Local Open Scope Q_scope.

Record thresholds := mkthresholds {
  heatwave_threshold_high : Q; heatwave_threshold_medium : Q;
  drought_threshold_low : Q; drought_threshold_medium : Q;
  flood_threshold_high : Q; flood_threshold_medium : Q;
  storm_threshold_high : Q; storm_threshold_medium : Q }.

Definition tropical_thresholds : thresholds := mkthresholds 38 33 60 50 90 80 25 18.
Definition temperate_thresholds : thresholds := mkthresholds 40 35 45 35 85 75 20 15.
Definition arid_thresholds : thresholds := mkthresholds 42 37 30 20 80 70 22 16.
Definition default_thresholds : thresholds := mkthresholds 40 35 40 30 85 75 20 15.

(** The [if]/[elif] chain that picks the thresholds. *)
Definition risk_thresholds (climate_info : Climate.profile) : thresholds :=
  if Climate.is_tropical climate_info then tropical_thresholds
  else if Climate.is_temperate climate_info then temperate_thresholds
  else if Climate.is_arid climate_info then arid_thresholds
  else default_thresholds.

Inductive level := LOW | MEDIUM | HIGH.

Record risks := mkrisks {
  heatwave : level; drought : level; storm : level; flood : level }.

(** [sum(xs)] of a sequence of doubles: the additions of binary64, from the
    left, starting at 0. An element stands for the double nearest to it,
    which it is when it is a double. (The elements are [numpy.float64] or
    [int] values, for which [sum] adds one by one.) *)
Definition py_sum (xs : list Q) : Float.float :=
  fold_left (fun acc x => Float.add acc (Float.round x)) xs (Float.Finite 0).

(** [max(xs)] of a sequence that holds one element at least. *)
Definition py_max_list (x : Q) (xs : list Q) : Q := fold_left py_max xs x.

(** [xs[-7:]]. *)
Definition last7 {A} (xs : list A) : list A := skipn (List.length xs - 7) xs.

Definition len {A} (xs : list A) : Q := inject_Z (Z.of_nat (List.length xs)).

(** The risk levels of a window that is not empty, first element [d]. *)
Definition assess (t : thresholds) (d : ForecastDay) (rest : list ForecastDay) : risks :=
  let recent_data := d :: rest in
  (* [sum(...) / len(recent_data)]: one division of binary64 *)
  let avg_temp_7d := Float.div (py_sum (map temperature recent_data)) (len recent_data) in
  let avg_humidity_7d := Float.div (py_sum (map humidity recent_data)) (len recent_data) in
  let max_temp_7d := py_max_list (temperature d) (map temperature rest) in
  let max_wind_7d := py_max_list (wind_speed d) (map wind_speed rest) in
  {| heatwave :=
       if Qlt_bool (heatwave_threshold_high t) max_temp_7d
          || Float.gt avg_temp_7d (heatwave_threshold_high t - 2) then HIGH
       else if Qlt_bool (heatwave_threshold_medium t) max_temp_7d
          || Float.gt avg_temp_7d (heatwave_threshold_medium t - 2) then MEDIUM
       else LOW;
     drought :=
       if Float.lt avg_humidity_7d (drought_threshold_low t) then HIGH
       else if Float.lt avg_humidity_7d (drought_threshold_medium t) then MEDIUM
       else LOW;
     storm :=
       if Qlt_bool (storm_threshold_high t) max_wind_7d then HIGH
       else if Qlt_bool (storm_threshold_medium t) max_wind_7d then MEDIUM
       else LOW;
     flood :=
       if Float.gt avg_humidity_7d (flood_threshold_high t) then HIGH
       else if Float.gt avg_humidity_7d (flood_threshold_medium t) then MEDIUM
       else LOW |}.

(** The computation inside [show_enhanced_disaster_risk], from the two
    forecasts it has generated; [None] when it stops at
    [if not current_weather or not historical_weather]. *)
Definition show_enhanced_disaster_risk (city : string)
    (current_weather historical_weather : option (list ForecastDay)) : option risks :=
  match current_weather, historical_weather with
  | Some (_ :: _), Some (h :: hs) =>
      match last7 (h :: hs) with
      | d :: rest =>
          Some (assess (risk_thresholds (Climate.get_city_climate_info city)) d rest)
      | [] => None
      end
  | _, _ => None
  end.

End Risk.

(** ** Concrete libraries, stores and bundles, for the examples *)

Module Demo.
Import Py.
Local Open Scope string_scope.
Local Open Scope Q_scope.

(** A numpy whose generator always draws the mean. *)
Definition numpy : Numpy := {|
  np_sin := fun _ => 0;
  np_cos := fun _ => 1;
  np_pi := 3.141592653589793;
  Generator := unit;
  np_random_normal := fun loc _ g => (loc, g) |}.

(** Artifacts without state: an object is a number, as a regressor the
    constant it predicts, as a scaler the identity, which raises (it is not
    fitted) when the number is negative; the text ["corrupt"] does not
    unpickle. *)
Definition artifacts : Artifacts := {|
  pyobj := Q;
  model_info_t := string;
  process := unit;
  transform := fun sc row => if Num.Qlt_bool sc 0 then raise ValueError else ret row;
  predict := fun c _ => ret c;
  joblib_load := fun data =>
    if String.eqb data "corrupt" then Raise UnpicklingError else Ret 23.456;
  json_loads := fun text => Ret text |}.

(** Artifacts with state: the process counts the calls of [predict]; a
    regressor [Some c] answers [c], and the regressor [None] answers with
    the count. *)
Definition counting : Artifacts := {|
  pyobj := option Q;
  model_info_t := string;
  process := Z;
  transform := fun _ row => ret row;
  predict := fun o _ => fun n =>
    (Ret (match o with Some c => c | None => inject_Z n end), (n + 1)%Z);
  joblib_load := fun _ => Ret None;
  json_loads := fun text => Ret text |}.

(** An S3 bucket that holds, for mumbai, the metadata document and the
    temperature regressor, and nothing else; no local model directory. *)
Definition s3_without_scaler : world := {|
  boto3_client := Ret tt;
  s3_get_object := fun _ key =>
    if String.eqb key "models/mumbai/model_info_mumbai.json" then Ret "{}"
    else if String.eqb key "models/mumbai/temperature_rf.joblib" then Ret "rf"
    else Raise NoSuchKey;
  os_path_exists := fun _ => false;
  read_file := fun _ => Raise OSError |}.

(** No S3 access at all; a local directory for pune with every file. *)
Definition local_only : world := {|
  boto3_client := Raise ClientError;
  s3_get_object := fun _ _ => Raise ClientError;
  os_path_exists := fun path => String.prefix "models/pune/" path;
  read_file := fun _ => Ret "data" |}.

Definition today : Calendar.date := Calendar.mkdate 2025 11 5.

(** A bundle with the temperature and humidity targets only. *)
Definition two_targets : @bundle artifacts :=
  @mkbundle artifacts
    (<["temperature_rf" := 23.456]> (<["humidity_rf" := 123.44]> ∅))
    (<["temperature" := 0]> (<["humidity" := 0]> ∅))
    "{}" "pune".

(** A bundle whose temperature scaler is not fitted. *)
Definition unfitted : @bundle artifacts :=
  @mkbundle artifacts (<["temperature_rf" := 23.456]> ∅) (<["temperature" := -1]> ∅)
    "{}" "pune".

(** Two bundles of the counting artifacts, with the temperature target:
    the regressor of the first answers with the count, that of the second
    with 23.5. *)
Definition counted : @bundle counting :=
  @mkbundle counting (<["temperature_rf" := None]> ∅) (<["temperature" := None]> ∅)
    "{}" "pune".

Definition steady : @bundle counting :=
  @mkbundle counting (<["temperature_rf" := Some 23.5]> ∅) (<["temperature" := None]> ∅)
    "{}" "pune".

Definition day (d : string) (t h p ws : Q) : ForecastDay := mkday d t h p ws.

(** [x] as a double: the value of the float written [x]. *)
Definition double (x : Q) : Q := Float.nearest x.

(** Seven days in jaipur with no day above 41.8 degrees; the doubles add up
    to 280 exactly. *)
Definition warm_week : list ForecastDay :=
  [ day "2025-06-01" (double 41.5) 30 1005 7; day "2025-06-02" (double 39.4) 28 1004 8;
    day "2025-06-03" (double 39.2) 27 1004 9; day "2025-06-04" (double 38.1) 25 1003 12;
    day "2025-06-05" (double 40.9) 26 1003 10; day "2025-06-06" (double 41.8) 29 1004 6;
    day "2025-06-07" (double 39.1) 31 1005 5 ].

(** Seven days in jaipur, the hottest at 43 degrees. *)
Definition hot_week : list ForecastDay :=
  [ day "2025-06-01" 36.5 30 1005 7; day "2025-06-02" 38 28 1004 8;
    day "2025-06-03" 39.5 27 1004 9; day "2025-06-04" 43 25 1003 12;
    day "2025-06-05" 41 26 1003 10; day "2025-06-06" 38.5 29 1004 6;
    day "2025-06-07" 37 31 1005 5 ].

End Demo.

(** ** Finite checks on the days of one year *)

Module CalendarCheck.
Import Calendar.
Local Open Scope Z_scope.

Definition leap_day (leap : bool) : Z := if leap then 1 else 0.

Definition zrange (k : nat) : list Z := map Z.of_nat (seq 0 k).

(** The [n]-th day of a year falls on a month and a day of that month, and
    counting the days before them gives [n] back. *)
Definition month_day_ok (leap : bool) (n : Z) : bool :=
  let '(m, d) := _month_day leap n in
  (1 <=? m) && (m <=? 12) && (1 <=? d) &&
  (d <=? _DAYS_IN_MONTH m + (if (m =? 2) && leap then 1 else 0)) &&
  (_DAYS_BEFORE_MONTH m + (if (2 <? m) && leap then 1 else 0) + d =? n + 1).

(** A month and a day of it are found again from the day of the year. *)
Definition day_of_year_ok (leap : bool) (m d : Z) : bool :=
  if (1 <=? m) && (m <=? 12) && (1 <=? d) &&
     (d <=? _DAYS_IN_MONTH m + (if (m =? 2) && leap then 1 else 0))
  then
    let n := _DAYS_BEFORE_MONTH m + (if (2 <? m) && leap then 1 else 0) + d - 1 in
    (0 <=? n) && (n <? 365 + leap_day leap) &&
    (let '(m', d') := _month_day leap n in (m' =? m) && (d' =? d))
  else true.

(** A year minus one, written in 400-, 100-, 4- and 1-year cycles, and the
    leap-year test and the day count in that writing. *)
Definition cycles (A B C E : Z) : Z := 400 * A + 100 * B + 4 * C + E.
Definition leap_cycles (B C E : Z) : bool := (E =? 3) && (negb (C =? 24) || (B =? 3)).
Definition days_cycles (A B C E : Z) : Z := 146097 * A + 36524 * B + 1461 * C + 365 * E.

End CalendarCheck.

(** ** What the fallback writes for one day *)

(** The clips and the rounding applied to some raw temperature, humidity,
    pressure and wind speed, whatever the noise was. *)
Definition fallback_day (info : Climate.profile) (d : Calendar.date) (r : ForecastDay) : Prop :=
  exists t h p w : Q,
    r = {| date := Calendar.strftime d;
           temperature := Num.round1 (Num.np_clip (climate_adjust info t h).1 15 45);
           humidity := Num.round1 (Num.np_clip (climate_adjust info t h).2 20 95);
           pressure := Num.round1 (Num.np_clip p 980 1020);
           wind_speed := Num.round1 (Num.np_clip w 0 20) |}.

(** ** Runs that only log accesses of one kind *)

(** A run of a tier that returns and only appends accesses that satisfy [P]
    to the log. *)
Definition logs_only `{Artifacts} (P : event -> bool) {A} (m : Py.M frame A) : Prop :=
  forall st, exists evs, f_trace (m st).2 = f_trace st ++ evs /\ forallb P evs = true.

Definition is_local (e : event) : bool := negb (is_remote e).

(** ** What the model-based path writes for one day *)

Section ModelDay.
Context `{Artifacts}.
Import Py.
Local Open Scope py_scope.

(** The value of one field: when the bundle has both the regressor and the
    scaler of the target, the scaler is called on the features, the
    regressor on the scaled row, and the prediction is post-processed by
    [post] and rounded to one decimal; it is 0 otherwise, without any call. *)
Definition model_field (md : bundle) (target : string) (post : Q -> Q) (features : list Q)
    : M process Q :=
  match models md !! (target ++ "_rf")%string, scalers md !! target with
  | Some rf, Some sc =>
      do scaled <- transform sc features;
      do pred <- predict rf scaled;
      ret (Num.round1 (post pred))
  | _, _ => ret 0%Q
  end.

End ModelDay.

Section ModelRecord.
Context `{Numpy} `{Artifacts}.
Import Py.
Local Open Scope py_scope.

(** The record of the model-based path for the date [d], field after field:
    humidity is clamped into [0, 100], wind speed to 0 and above,
    temperature and pressure are not clamped. *)
Definition model_day (md : bundle) (d : Calendar.date) : M process ForecastDay :=
  let features := create_weather_features d (Some (city md)) in
  do t <- model_field md "temperature" (fun v => v) features;
  do h <- model_field md "humidity" (fun v => Num.py_max 0 (Num.py_min 100 v)) features;
  do p <- model_field md "pressure" (fun v => v) features;
  do w <- model_field md "wind_speed" (fun v => Num.py_max 0 v) features;
  ret {| date := Calendar.strftime d;
         temperature := t; humidity := h; pressure := p; wind_speed := w |}.

End ModelRecord.

(** ** Forecasts day by day *)

(** The date text of a record is the calendar day [i] days after [now]. *)
Definition dated (now : Calendar.date) (i : Z) (r : ForecastDay) : Prop :=
  exists d, Calendar.strptime (date r) = Some d /\
            Calendar.valid d = true /\
            Calendar.toordinal d = (Calendar.toordinal now + i)%Z.

(** [days] records, one per day, in order, from [now] on. *)
Definition consecutive_from (now : Calendar.date) (days : Z) (l : list ForecastDay) : Prop :=
  List.length l = Z.to_nat days /\
  Forall2 (dated now) (Py.range days) l /\
  (forall r, head l = Some r -> date r = Calendar.strftime now).

(** A computation that returns from every state. *)
Definition returns {S A} (m : Py.M S A) : Prop :=
  forall s, exists a s', m s = (Py.Ret a, s').

(** ** The objects of a bundle *)

Section BundleObjects.
Context `{Artifacts}.

(** No call on a scaler or a regressor of the bundle raises. *)
Definition calls_return (md : bundle) : Prop :=
  (forall t sc x, scalers md !! t = Some sc -> returns (transform sc x)) /\
  (forall k rf x, models md !! k = Some rf -> returns (predict rf x)).

(** A computation whose outcome is the same from every state of the
    process. *)
Definition deterministic {A} (m : Py.M process A) : Prop :=
  forall s1 s2, (m s1).1 = (m s2).1.

(** The scalers and regressors of the bundle answer a row the same way
    whenever they are asked. *)
Definition deterministic_objects (md : bundle) : Prop :=
  (forall t sc x, scalers md !! t = Some sc -> deterministic (transform sc x)) /\
  (forall k rf x, models md !! k = Some rf -> deterministic (predict rf x)).

End BundleObjects.

(** ** Specifications of runs *)

(** From a state that satisfies [P], a run either returns [a] in a state
    with [Q a] or raises in a state with [E]. *)
Definition hoare {S A} (P : S -> Prop) (m : Py.M S A) (Q : A -> S -> Prop) (E : S -> Prop) : Prop :=
  forall s, P s ->
    match m s with
    | (Py.Ret a, s') => Q a s'
    | (Py.Raise _, s') => E s'
    end.

Section FrameInvariants.
Context `{Artifacts}.

(** Every target has its regressor exactly when it has its scaler. *)
Definition paired (st : frame) : Prop :=
  forall t, is_Some (f_models st !! (t ++ "_rf")%string) <-> is_Some (f_scalers st !! t).

(** A scaler is only there with its regressor. *)
Definition scaler_has_regressor (st : frame) : Prop :=
  forall t, is_Some (f_scalers st !! t) -> is_Some (f_models st !! (t ++ "_rf")%string).

(** The keys of [models] are the regressor keys of the four targets. *)
Definition regressor_keys (st : frame) : Prop :=
  forall k, is_Some (f_models st !! k) -> exists t, In t TARGETS /\ k = (t ++ "_rf")%string.

(** The invariant of the local tier, and what holds between its two stores
    for one target. *)
Definition local_inv (st : frame) : Prop := paired st /\ regressor_keys st.

Definition local_mid (target : string) (st : frame) : Prop :=
  exists st0 m, local_inv st0 /\
    f_models st = <[(target ++ "_rf")%string := m]> (f_models st0) /\
    f_scalers st = f_scalers st0.

(** The invariant of the S3 tier, and what holds once a regressor is stored. *)
Definition s3_inv (st : frame) : Prop := scaler_has_regressor st /\ regressor_keys st.

Definition s3_mid (target : string) (st : frame) : Prop :=
  s3_inv st /\ is_Some (f_models st !! (target ++ "_rf")%string).

(** A property of a frame that only reads its two dictionaries. *)
Definition dict_only (I : frame -> Prop) : Prop :=
  forall st tr, I st -> I (mkframe tr (f_models st) (f_scalers st)).

(** What a tier promises about a bundle it returns for [city_name]: the keys
    of [models] are regressor keys of the four targets, there is at least
    one, and the bundle names the city. *)
Definition tier_bundle (city_name : string) (b : bundle) : Prop :=
  models b <> ∅ /\
  (forall k, is_Some (models b !! k) -> exists t, In t TARGETS /\ k = (t ++ "_rf")%string) /\
  city b = city_name.

End FrameInvariants.

(** * Properties *)

(** ** Comparisons, clamps and rounding *)

(** [lra] does not take [/]: a division by ten becomes a product. *)
Ltac tenths := unfold Qdiv in *; change (/ 10)%Q with (1 # 10)%Q in *.

Section NumFacts.
Import Num.
Local Open Scope Q_scope.

Lemma Qlt_bool_iff (x y : Q) : Qlt_bool x y = true <-> x < y.
Proof.
  unfold Qlt_bool. rewrite negb_true_iff, <- not_true_iff_false, Qle_bool_iff.
  split; [apply Qnot_le_lt | apply Qlt_not_le].
Qed.

Lemma Qlt_bool_false (x y : Q) : Qlt_bool x y = false <-> y <= x.
Proof.
  unfold Qlt_bool. rewrite negb_false_iff. apply Qle_bool_iff.
Qed.

Lemma py_max_spec (a b : Q) : a <= py_max a b /\ b <= py_max a b /\ (py_max a b = a \/ py_max a b = b).
Proof.
  unfold py_max. destruct (Qlt_bool a b) eqn:E.
  - apply Qlt_bool_iff in E. repeat split; [lra | lra | now right].
  - apply Qlt_bool_false in E. repeat split; [lra | lra | now left].
Qed.

Lemma py_min_spec (a b : Q) : py_min a b <= a /\ py_min a b <= b /\ (py_min a b = a \/ py_min a b = b).
Proof.
  unfold py_min. destruct (Qlt_bool b a) eqn:E.
  - apply Qlt_bool_iff in E. repeat split; [lra | lra | now right].
  - apply Qlt_bool_false in E. repeat split; [lra | lra | now left].
Qed.

Lemma np_clip_bounds (x lo hi : Q) : lo <= hi -> lo <= np_clip x lo hi /\ np_clip x lo hi <= hi.
Proof.
  intros Hle. unfold np_clip.
  destruct (py_max_spec x lo) as (_ & Hlo & _).
  destruct (py_min_spec (py_max x lo) hi) as (H1 & H2 & [E | E]);
    rewrite E in *; split; lra.
Qed.

(** A clip keeps a lower bound that lies under its ceiling. *)
Lemma np_clip_keeps_floor (x lo hi c : Q) : c <= x -> c <= hi -> c <= np_clip x lo hi.
Proof.
  intros Hx Hhi. unfold np_clip.
  destruct (py_max_spec x lo) as (Hx' & _ & _).
  destruct (py_min_spec (py_max x lo) hi) as (_ & _ & [E | E]); rewrite E; lra.
Qed.

Lemma round_half_even_floor (x : Q) :
  (Qfloor x <= round_half_even x <= Qfloor x + 1)%Z.
Proof.
  unfold round_half_even.
  repeat match goal with |- context [if ?b then _ else _] => destruct b end; lia.
Qed.

Lemma round_half_even_ge (x : Q) (k : Z) : inject_Z k <= x -> (k <= round_half_even x)%Z.
Proof.
  intros Hk. apply Qfloor_resp_le in Hk. rewrite Qfloor_Z in Hk.
  pose proof (round_half_even_floor x). lia.
Qed.

Lemma round_half_even_le (x : Q) (k : Z) : x <= inject_Z k -> (round_half_even x <= k)%Z.
Proof.
  intros Hk. pose proof (Qfloor_resp_le _ _ Hk) as Hf. rewrite Qfloor_Z in Hf.
  destruct (Z.eq_dec (Qfloor x) k) as [Heq | Hne].
  - assert (Hx : x - inject_Z (Qfloor x) < 1 # 2).
    { pose proof (Qfloor_le x) as Hl. rewrite Heq in *. lra. }
    unfold round_half_even. apply Qlt_bool_iff in Hx. rewrite Hx. lia.
  - pose proof (round_half_even_floor x). lia.
Qed.

(** Rounding to one decimal keeps bounds that are multiples of one tenth. *)
Lemma round1_ge (x : Q) (k : Z) : inject_Z k / 10 <= x -> inject_Z k / 10 <= round1 x.
Proof.
  intros Hk. unfold round1.
  assert (Hk' : inject_Z k <= x * 10) by (tenths; lra).
  apply round_half_even_ge in Hk'.
  assert (inject_Z k <= inject_Z (round_half_even (x * 10))) by (rewrite <- Zle_Qle; exact Hk').
  tenths; lra.
Qed.

Lemma round1_le (x : Q) (k : Z) : x <= inject_Z k / 10 -> round1 x <= inject_Z k / 10.
Proof.
  intros Hk. unfold round1.
  assert (Hk' : x * 10 <= inject_Z k) by (tenths; lra).
  apply round_half_even_le in Hk'.
  assert (inject_Z (round_half_even (x * 10)) <= inject_Z k) by (rewrite <- Zle_Qle; exact Hk').
  tenths; lra.
Qed.

Lemma round1_ge_0 (x : Q) : 0 <= x -> 0 <= round1 x.
Proof.
  intros Hx. pose proof (round1_ge x 0) as Hr.
  change (inject_Z 0 / 10) with (0 # 10) in Hr. lra.
Qed.

Lemma round1_le_100 (x : Q) : x <= 100 -> round1 x <= 100.
Proof.
  intros Hx. pose proof (round1_le x 1000) as Hr.
  change (inject_Z 1000 / 10) with (1000 # 10) in Hr. lra.
Qed.

Lemma round1_ge_60 (x : Q) : 60 <= x -> 60 <= round1 x.
Proof.
  intros Hx. pose proof (round1_ge x 600) as Hr.
  change (inject_Z 600 / 10) with (600 # 10) in Hr. lra.
Qed.

End NumFacts.

(** ** The calendar *)

Section CalendarFacts.
Import Calendar CalendarCheck.
Local Open Scope Z_scope.

Lemma zrange_forallb (P : Z -> bool) (k : nat) :
  forallb P (zrange k) = true -> forall n, 0 <= n < Z.of_nat k -> P n = true.
Proof.
  intros Hall n Hn. rewrite forallb_forall in Hall. apply Hall.
  unfold zrange. apply in_map_iff. exists (Z.to_nat n). split; [lia |].
  apply in_seq. lia.
Qed.

Lemma month_day_ok_leap n : 0 <= n < 366 -> month_day_ok true n = true.
Proof. apply (zrange_forallb (month_day_ok true) 366). vm_compute. reflexivity. Qed.

Lemma month_day_ok_common n : 0 <= n < 365 -> month_day_ok false n = true.
Proof. apply (zrange_forallb (month_day_ok false) 365). vm_compute. reflexivity. Qed.

Lemma month_day_spec (leap : bool) (n : Z) :
  0 <= n < 365 + leap_day leap ->
  forall m d, _month_day leap n = (m, d) ->
    1 <= m <= 12 /\ 1 <= d <= _DAYS_IN_MONTH m + (if (m =? 2) && leap then 1 else 0) /\
    _DAYS_BEFORE_MONTH m + (if (2 <? m) && leap then 1 else 0) + d = n + 1.
Proof.
  intros Hn m d E.
  assert (Hok : month_day_ok leap n = true).
  { destruct leap; [apply month_day_ok_leap | apply month_day_ok_common]; simpl in Hn; lia. }
  unfold month_day_ok in Hok. rewrite E in Hok.
  repeat (apply andb_prop in Hok; destruct Hok as [Hok ?]). lia.
Qed.

Lemma day_of_year_ok_all (leap : bool) (m d : Z) : day_of_year_ok leap m d = true.
Proof.
  destruct (decide (1 <= m <= 12 /\ 1 <= d <= 31)) as [Hin | Hout].
  - assert (H : forallb (fun m => forallb (fun d => day_of_year_ok leap m d) (zrange 32)) (zrange 13) = true)
      by (destruct leap; vm_compute; reflexivity).
    pose proof (zrange_forallb _ _ H m ltac:(lia)) as Hm. cbv beta in Hm.
    apply (zrange_forallb _ _ Hm d). lia.
  - unfold day_of_year_ok.
    destruct ((1 <=? m) && (m <=? 12) && (1 <=? d) &&
              (d <=? _DAYS_IN_MONTH m + (if (m =? 2) && leap then 1 else 0))) eqn:E; [| reflexivity].
    exfalso. apply Hout.
    repeat (apply andb_prop in E; destruct E as [E ?]).
    assert (_DAYS_IN_MONTH m + (if (m =? 2) && leap then 1 else 0) <= 31).
    { assert (Hm : m = 1 \/ m = 2 \/ m = 3 \/ m = 4 \/ m = 5 \/ m = 6 \/ m = 7 \/ m = 8 \/
                   m = 9 \/ m = 10 \/ m = 11 \/ m = 12) by lia.
      destruct leap; repeat (destruct Hm as [-> | Hm]; [simpl; lia |]); subst; simpl; lia. }
    lia.
Qed.

Lemma day_of_year_spec (leap : bool) (m d : Z) :
  1 <= m <= 12 -> 1 <= d <= _DAYS_IN_MONTH m + (if (m =? 2) && leap then 1 else 0) ->
  let n := _DAYS_BEFORE_MONTH m + (if (2 <? m) && leap then 1 else 0) + d - 1 in
  0 <= n < 365 + leap_day leap /\ _month_day leap n = (m, d).
Proof.
  intros Hm Hd n. pose proof (day_of_year_ok_all leap m d) as Hok.
  unfold day_of_year_ok in Hok.
  replace ((1 <=? m) && (m <=? 12) && (1 <=? d) &&
           (d <=? _DAYS_IN_MONTH m + (if (m =? 2) && leap then 1 else 0))) with true in Hok
    by (symmetry; repeat (apply andb_true_intro; split); lia).
  fold n in Hok. destruct (_month_day leap n) as [m' d'].
  repeat (apply andb_prop in Hok; destruct Hok as [Hok ?]).
  split; [lia | f_equal; lia].
Qed.

End CalendarFacts.

(** [lia] after the equations of the divisions and remainders. *)
Ltac lia_div := Z.to_euclidean_division_equations; lia.

Section CalendarYears.
Import Calendar CalendarCheck.
Local Open Scope Z_scope.

Lemma is_leap_cycles (A B C E : Z) :
  0 <= B <= 3 -> 0 <= C <= 24 -> 0 <= E <= 3 ->
  _is_leap (cycles A B C E + 1) = (E =? 3) && (negb (C =? 24) || (B =? 3)).
Proof.
  intros HB HC HE. unfold _is_leap, cycles.
  assert (H4 : (400 * A + 100 * B + 4 * C + E + 1) mod 4 = (E + 1) mod 4).
  { replace (400 * A + 100 * B + 4 * C + E + 1) with (E + 1 + (100 * A + 25 * B + C) * 4) by lia.
    apply Z.mod_add. lia. }
  assert (H100 : (400 * A + 100 * B + 4 * C + E + 1) mod 100 = (4 * C + E + 1) mod 100).
  { replace (400 * A + 100 * B + 4 * C + E + 1) with (4 * C + E + 1 + (4 * A + B) * 100) by lia.
    apply Z.mod_add. lia. }
  assert (H400 : (400 * A + 100 * B + 4 * C + E + 1) mod 400 = (100 * B + 4 * C + E + 1) mod 400).
  { replace (400 * A + 100 * B + 4 * C + E + 1) with (100 * B + 4 * C + E + 1 + A * 400) by lia.
    apply Z.mod_add. lia. }
  rewrite H4, H100, H400. clear H4 H100 H400.
  destruct (Z.eqb_spec E 3); destruct (Z.eqb_spec C 24); destruct (Z.eqb_spec B 3); simpl;
    repeat match goal with
           | |- context [?x mod ?k =? 0] => destruct (Z.eqb_spec (x mod k) 0)
           end; try reflexivity; exfalso; lia_div.
Qed.

Lemma days_before_year_cycles (A B C E : Z) :
  0 <= B <= 3 -> 0 <= C <= 24 -> 0 <= E <= 3 ->
  _days_before_year (cycles A B C E + 1) = 146097 * A + 36524 * B + 1461 * C + 365 * E.
Proof.
  intros HB HC HE. unfold _days_before_year, cycles. cbv zeta.
  replace (400 * A + 100 * B + 4 * C + E + 1 - 1) with (400 * A + 100 * B + 4 * C + E) by lia.
  assert (H4 : (400 * A + 100 * B + 4 * C + E) / 4 = 100 * A + 25 * B + C).
  { replace (400 * A + 100 * B + 4 * C + E) with (E + (100 * A + 25 * B + C) * 4) by lia.
    rewrite Z.div_add by lia. rewrite Z.div_small by lia. lia. }
  assert (H100 : (400 * A + 100 * B + 4 * C + E) / 100 = 4 * A + B).
  { replace (400 * A + 100 * B + 4 * C + E) with (4 * C + E + (4 * A + B) * 100) by lia.
    rewrite Z.div_add by lia. rewrite Z.div_small by lia. lia. }
  assert (H400 : (400 * A + 100 * B + 4 * C + E) / 400 = A).
  { replace (400 * A + 100 * B + 4 * C + E) with (100 * B + 4 * C + E + A * 400) by lia.
    rewrite Z.div_add by lia. rewrite Z.div_small by lia. lia. }
  rewrite H4, H100, H400. lia.
Qed.

(** Every year minus one has such a writing. *)
Lemma cycles_of_year (p : Z) :
  exists A B C E, p = cycles A B C E /\ 0 <= B <= 3 /\ 0 <= C <= 24 /\ 0 <= E <= 3 /\ A = p / 400.
Proof.
  exists (p / 400), (p mod 400 / 100), (p mod 100 / 4), (p mod 4).
  unfold cycles. repeat split; lia_div.
Qed.


(** [_ord2ymd] on an ordinal given by its cycles and the day of the year. *)
Lemma ord2ymd_cycles (A B C E r : Z) :
  0 <= B <= 3 -> 0 <= C <= 24 -> 0 <= E <= 3 ->
  0 <= r < 365 + leap_day (leap_cycles B C E) ->
  _ord2ymd (days_cycles A B C E + r + 1) =
  let '(m, d) := _month_day (leap_cycles B C E) r in mkdate (cycles A B C E + 1) m d.
Proof.
  intros HB HC HE Hr.
  unfold _ord2ymd, _DI400Y, _DI100Y, _DI4Y, days_cycles. cbv zeta.
  replace (146097 * A + 36524 * B + 1461 * C + 365 * E + r + 1 - 1)
    with (36524 * B + 1461 * C + 365 * E + r + A * 146097) by lia.
  assert (Hsmall : 0 <= 36524 * B + 1461 * C + 365 * E + r < 146097).
  { unfold leap_cycles, leap_day in Hr.
    destruct (Z.eqb_spec E 3); destruct (Z.eqb_spec C 24); destruct (Z.eqb_spec B 3);
      simpl in Hr; lia. }
  rewrite Z.div_add, Z.mod_add by lia.
  rewrite (Z.div_small _ 146097), (Z.mod_small _ 146097) by lia.
  destruct (Z.eq_dec r 365) as [-> | Hr365].
  - (* the last day of a leap year *)
    assert (HE3 : E = 3).
    { unfold leap_cycles, leap_day in Hr. destruct (Z.eqb_spec E 3); simpl in Hr; lia. }
    subst E.
    assert (Hleap : leap_cycles B C 3 = true).
    { unfold leap_day in Hr. destruct (leap_cycles B C 3); [reflexivity | lia]. }
    rewrite Hleap. change (_month_day true 365) with (12, 31).
    unfold leap_cycles in Hleap. simpl in Hleap.
    destruct (Z.eqb_spec C 24) as [-> | HC24].
    + destruct (Z.eqb_spec B 3) as [-> | ?]; [| discriminate].
      change (36524 * 3 + 1461 * 24 + 365 * 3 + 365) with 146096.
      change (146096 / 36524) with 4. change (146096 mod 36524) with 0.
      change (0 / 1461) with 0. change (0 mod 1461) with 0. change (0 / 365) with 0.
      change ((0 =? 4) || (4 =? 4)) with true. cbv iota.
      unfold cycles. f_equal. lia.
    + replace (36524 * B + 1461 * C + 365 * 3 + 365) with (1461 * C + 1460 + B * 36524) by lia.
      rewrite Z.div_add, Z.mod_add by lia.
      rewrite (Z.div_small _ 36524), (Z.mod_small _ 36524) by lia.
      replace (1461 * C + 1460) with (1460 + C * 1461) by lia.
      rewrite Z.div_add, Z.mod_add by lia.
      rewrite (Z.div_small _ 1461), (Z.mod_small _ 1461) by lia.
      change (1460 / 365) with 4. change (1460 mod 365) with 0.
      replace (0 + B =? 4) with false by (symmetry; apply Z.eqb_neq; lia).
      simpl. unfold cycles. f_equal. lia.
  - assert (Hr364 : r <= 364) by (unfold leap_day in Hr; destruct (leap_cycles B C E); lia).
    replace (36524 * B + 1461 * C + 365 * E + r) with (1461 * C + 365 * E + r + B * 36524) by lia.
    rewrite Z.div_add, Z.mod_add by lia.
    rewrite (Z.div_small _ 36524), (Z.mod_small _ 36524) by lia.
    replace (1461 * C + 365 * E + r) with (365 * E + r + C * 1461) by lia.
    rewrite Z.div_add, Z.mod_add by lia.
    rewrite (Z.div_small _ 1461), (Z.mod_small _ 1461) by lia.
    replace (365 * E + r) with (r + E * 365) by lia.
    rewrite Z.div_add, Z.mod_add by lia.
    rewrite (Z.div_small _ 365), (Z.mod_small _ 365) by lia.
    replace (0 + E =? 4) with false by (symmetry; apply Z.eqb_neq; lia).
    replace (0 + B =? 4) with false by (symmetry; apply Z.eqb_neq; lia).
    simpl orb. cbv iota.
    change ((0 + E =? 3) && (negb (0 + C =? 24) || (0 + B =? 3))) with (leap_cycles B C E).
    destruct (_month_day (leap_cycles B C E) r) as [m d].
    unfold cycles. f_equal. lia.
Qed.

Lemma valid_fields (d : date) :
  valid d = true ->
  1 <= year d <= 9999 /\ 1 <= month d <= 12 /\
  1 <= day d <= _DAYS_IN_MONTH (month d) + (if (month d =? 2) && _is_leap (year d) then 1 else 0).
Proof.
  unfold valid, _days_in_month. intros Hv.
  repeat (apply andb_prop in Hv; destruct Hv as [Hv ?]).
  destruct ((month d =? 2) && _is_leap (year d)) eqn:E.
  - apply andb_prop in E. destruct E as [E _]. apply Z.eqb_eq in E. rewrite E in *. simpl. lia.
  - lia.
Qed.

(** The ordinal of a date, by the cycles of its year. *)
Lemma toordinal_cycles (d : date) (A B C E : Z) :
  valid d = true -> year d = cycles A B C E + 1 ->
  0 <= B <= 3 -> 0 <= C <= 24 -> 0 <= E <= 3 ->
  exists r, toordinal d = days_cycles A B C E + r + 1 /\
            0 <= r < 365 + leap_day (leap_cycles B C E) /\
            _month_day (leap_cycles B C E) r = (month d, day d).
Proof.
  intros Hv Hy HB HC HE. destruct (valid_fields d Hv) as (_ & Hm & Hd).
  rewrite Hy, is_leap_cycles in Hd by assumption.
  destruct (day_of_year_spec (leap_cycles B C E) (month d) (day d) Hm Hd) as [Hr Hmd].
  eexists. split; [| split; [exact Hr | exact Hmd]].
  unfold toordinal, _ymd2ord, _days_before_month.
  rewrite Hy, days_before_year_cycles, is_leap_cycles by assumption.
  unfold days_cycles, leap_cycles. lia.
Qed.

Lemma fromordinal_toordinal (d : date) : valid d = true -> fromordinal (toordinal d) = d.
Proof.
  intros Hv. destruct (cycles_of_year (year d - 1)) as (A & B & C & E & Hy & HB & HC & HE & _).
  assert (Hy' : year d = cycles A B C E + 1) by lia.
  destruct (toordinal_cycles d A B C E Hv Hy' HB HC HE) as (r & Hord & Hr & Hmd).
  unfold fromordinal. rewrite Hord, ord2ymd_cycles by assumption.
  rewrite Hmd, <- Hy'. destruct d; reflexivity.
Qed.

(** Every day count from 0 on is a day of some year. *)
Lemma ordinal_cycles (n : Z) :
  0 <= n ->
  exists A B C E r, n = days_cycles A B C E + r /\ 0 <= A /\
    0 <= B <= 3 /\ 0 <= C <= 24 /\ 0 <= E <= 3 /\
    0 <= r < 365 + leap_day (leap_cycles B C E).
Proof.
  intros Hn.
  set (A := n / 146097). set (R1 := n mod 146097).
  set (B := Z.min (R1 / 36524) 3). set (R2 := R1 - 36524 * B).
  set (C := Z.min (R2 / 1461) 24). set (R3 := R2 - 1461 * C).
  set (E := Z.min (R3 / 365) 3). set (r := R3 - 365 * E).
  assert (HR1 : 0 <= R1 < 146097) by (subst R1; apply Z.mod_pos_bound; lia).
  assert (HA : 0 <= A /\ n = 146097 * A + R1) by (subst A R1; lia_div).
  assert (HB : 0 <= B <= 3 /\ 0 <= R2 <= 36524 /\ (R2 = 36524 -> B = 3)) by (subst B R2; lia_div).
  assert (HC : 0 <= C <= 24 /\ 0 <= R3 <= 1460 /\ (R3 = 1460 -> C = 24 -> B = 3))
    by (subst C R3; lia_div).
  assert (HE : 0 <= E <= 3 /\ 0 <= r <= 365 /\ (r = 365 -> E = 3 /\ R3 = 1460))
    by (subst E r; lia_div).
  exists A, B, C, E, r. unfold days_cycles.
  repeat split; try lia.
  unfold leap_cycles, leap_day.
  destruct (Z.eqb_spec E 3); destruct (Z.eqb_spec C 24); destruct (Z.eqb_spec B 3); simpl; lia.
Qed.

Lemma toordinal_fromordinal (n : Z) : 1 <= n -> toordinal (fromordinal n) = n.
Proof.
  intros Hn.
  destruct (ordinal_cycles (n - 1)) as (A & B & C & E & r & Hdec & HA & HB & HC & HE & Hr); [lia |].
  replace n with (days_cycles A B C E + r + 1) by lia.
  unfold fromordinal. rewrite ord2ymd_cycles by assumption.
  destruct (_month_day (leap_cycles B C E) r) as [m d] eqn:Emd.
  destruct (month_day_spec _ _ Hr m d Emd) as (Hm & Hd & Hsum).
  unfold toordinal, _ymd2ord, _days_before_month. simpl.
  rewrite days_before_year_cycles, is_leap_cycles by assumption.
  unfold days_cycles, leap_cycles in *. lia.
Qed.

Lemma fromordinal_valid (n : Z) : 1 <= n <= _MAXORDINAL -> valid (fromordinal n) = true.
Proof.
  intros Hn. unfold _MAXORDINAL in Hn.
  destruct (ordinal_cycles (n - 1)) as (A & B & C & E & r & Hdec & HA & HB & HC & HE & Hr); [lia |].
  replace n with (days_cycles A B C E + r + 1) by lia.
  unfold fromordinal. rewrite ord2ymd_cycles by assumption.
  destruct (_month_day (leap_cycles B C E) r) as [m d] eqn:Emd.
  destruct (month_day_spec _ _ Hr m d Emd) as (Hm & Hd & Hsum).
  unfold valid, _days_in_month. simpl.
  rewrite is_leap_cycles by assumption. fold (leap_cycles B C E).
  assert (Hy : cycles A B C E + 1 <= 9999).
  { unfold days_cycles, cycles in *. lia. }
  assert (Hd' : d <= (if (m =? 2) && leap_cycles B C E then 29 else _DAYS_IN_MONTH m)).
  { destruct ((m =? 2) && leap_cycles B C E) eqn:E2; [| lia].
    apply andb_prop in E2. destruct E2 as [E2 _]. apply Z.eqb_eq in E2. subst m. simpl in Hd. lia. }
  unfold cycles in *.
  repeat (apply andb_true_intro; split); lia.
Qed.

Lemma toordinal_range (d : date) : valid d = true -> 1 <= toordinal d <= _MAXORDINAL.
Proof.
  intros Hv. destruct (cycles_of_year (year d - 1)) as (A & B & C & E & Hy & HB & HC & HE & HA).
  assert (Hy' : year d = cycles A B C E + 1) by lia.
  destruct (toordinal_cycles d A B C E Hv Hy' HB HC HE) as (r & Hord & Hr & Hmd).
  destruct (valid_fields d Hv) as (Hyear & _ & _).
  assert (0 <= A) by (subst A; lia_div).
  assert (Hleap : leap_day (leap_cycles B C E) <= 1) by (unfold leap_day; destruct (leap_cycles B C E); lia).
  unfold _MAXORDINAL, days_cycles, cycles in *.
  assert (r = 365 -> E = 3).
  { unfold leap_cycles, leap_day in Hr. destruct (Z.eqb_spec E 3); simpl in Hr; lia. }
  lia.
Qed.

End CalendarYears.

(** ** Dates as text *)

Section DateText.
Import Calendar Str.
Local Open Scope Z_scope.

Lemma Z_of_digit_of_Z (k : Z) : 0 <= k <= 9 -> Z_of_digit (digit_of_Z k) = Some k.
Proof.
  intros Hk.
  assert (H : k = 0 \/ k = 1 \/ k = 2 \/ k = 3 \/ k = 4 \/ k = 5 \/ k = 6 \/ k = 7 \/ k = 8 \/ k = 9)
    by lia.
  repeat (destruct H as [-> | H]; [reflexivity |]). subst. reflexivity.
Qed.

Lemma num2_digits (n : Z) :
  0 <= n <= 99 -> num2 (digit_of_Z (n / 10)) (digit_of_Z (n mod 10)) = Some n.
Proof.
  intros Hn. unfold num2.
  rewrite !Z_of_digit_of_Z by lia_div. f_equal. lia_div.
Qed.

Lemma num4_digits (n : Z) :
  0 <= n <= 9999 ->
  num4 (digit_of_Z (n / 1000)) (digit_of_Z (n / 100 mod 10))
       (digit_of_Z (n / 10 mod 10)) (digit_of_Z (n mod 10)) = Some n.
Proof.
  intros Hn. unfold num4, num2.
  rewrite !Z_of_digit_of_Z by lia_div. f_equal. lia_div.
Qed.

(** Parsing what [strftime] wrote gives the date back. *)
Lemma strptime_strftime (d : date) : valid d = true -> strptime (strftime d) = Some d.
Proof.
  intros Hv. destruct (valid_fields d Hv) as (Hy & Hm & Hd).
  assert (Hd' : day d <= 31).
  { assert (H : month d = 1 \/ month d = 2 \/ month d = 3 \/ month d = 4 \/ month d = 5 \/
                month d = 6 \/ month d = 7 \/ month d = 8 \/ month d = 9 \/ month d = 10 \/
                month d = 11 \/ month d = 12) by lia.
    destruct (_is_leap (year d));
      repeat (destruct H as [H | H]; [rewrite H in Hd; simpl in Hd; lia |]);
      rewrite H in Hd; simpl in Hd; lia. }
  unfold strftime, pad4, pad2, strptime. cbv beta iota delta [append].
  rewrite num4_digits, !num2_digits by lia.
  destruct d as [y m dd]. simpl in *. rewrite Hv. reflexivity.
Qed.

End DateText.

(** ** Loops and handlers *)

Section MonadFacts.
Import Py.
Local Open Scope py_scope.
Context {S A B : Type}.

(** Each element of the list a loop has built comes from one run of the
    body on the matching element of the input, in order. *)
Lemma for_append_Forall2 (body : A -> M S B) (xs : list A) (s s' : S) (ys : list B) :
  for_append xs body s = (Ret ys, s') ->
  Forall2 (fun x y => exists s1 s2, body x s1 = (Ret y, s2)) xs ys.
Proof.
  revert s ys. induction xs as [| x xs IH]; intros s ys Hrun; simpl in Hrun.
  - inversion Hrun. constructor.
  - unfold bind in Hrun. destruct (body x s) as [[y | e] s1] eqn:Ex; [| discriminate].
    destruct (for_append xs body s1) as [[ys' | e] s2] eqn:Exs; [| discriminate].
    inversion Hrun; subst. constructor; [eauto | eapply IH; eauto].
Qed.

(** A loop whose body always returns, returns. *)
Lemma for_append_returns (body : A -> M S B) (xs : list A) :
  (forall x, In x xs -> forall s, exists y s', body x s = (Ret y, s')) ->
  forall s, exists ys s', for_append xs body s = (Ret ys, s').
Proof.
  induction xs as [| x xs IH]; intros Hbody s; simpl.
  - eexists _, _. reflexivity.
  - destruct (Hbody x (or_introl eq_refl) s) as (y & s1 & Ex).
    destruct (IH (fun x' Hx' => Hbody x' (or_intror Hx')) s1) as (ys & s2 & Exs).
    unfold bind. rewrite Ex, Exs. eexists _, _. reflexivity.
Qed.

(** A loop that meets an element on which the body always raises, raises. *)
Lemma for_append_raises (body : A -> M S B) (xs : list A) (x : A) :
  In x xs -> (forall s, exists e s', body x s = (Raise e, s')) ->
  forall s, exists e s', for_append xs body s = (Raise e, s').
Proof.
  intros Hin Hx. induction xs as [| x0 xs IH]; intros s; [destruct Hin |]. simpl.
  unfold bind. destruct (body x0 s) as [[y | e] s1] eqn:E0.
  - destruct Hin as [-> | Hin].
    + destruct (Hx s) as (e & s' & Ex). congruence.
    + destruct (IH Hin s1) as (e & s2 & Exs). rewrite Exs. eauto.
  - eauto.
Qed.

End MonadFacts.

Section HandlerFacts.
Import Py.
Context {S A : Type}.

(** [except Exception] with a handler that returns: the whole never raises. *)
Lemma try_except_Exception (body : M S (option A)) (s : S) :
  try_except body Exception (fun _ => ret None) s =
  match body s with
  | (Ret a, s') => (Ret a, s')
  | (Raise _, s') => (Ret None, s')
  end.
Proof. unfold try_except, Exception, ret. destruct (body s) as [[a | e] s']; reflexivity. Qed.

End HandlerFacts.

Section BindFacts.
Import Py.
Context {S A B : Type}.

(** A sequence that returns: its first step returned, and so did the rest. *)
Lemma bind_Ret (m : M S A) (k : A -> M S B) (s s2 : S) (y : B) :
  bind m k s = (Ret y, s2) -> exists a s1, m s = (Ret a, s1) /\ k a s1 = (Ret y, s2).
Proof.
  unfold bind. destruct (m s) as [[a | e] s1]; [eauto | discriminate].
Qed.

Lemma of_option_Ret (e : exn) (o : option A) (s s' : S) (a : A) :
  of_option e o s = (Ret a, s') -> o = Some a /\ s' = s.
Proof.
  destruct o as [a' |]; simpl; unfold ret, raise; intros Heq; inversion Heq; auto.
Qed.

Lemma Ret_inj (a a' : A) (s s' : S) :
  (@Ret A a, s) = (Ret a', s') -> a = a' /\ s = s'.
Proof. intros Heq. inversion Heq. auto. Qed.

End BindFacts.

(** ** The synthetic path *)

Section FallbackFacts.
Context `{Numpy}.
Import Py Num.
Local Open Scope Q_scope.

Lemma fallback_records (now : Calendar.date) (city : string) (days : Z)
    (g g' : Generator) (l : list ForecastDay) :
  generate_realistic_weather_fallback now city days g = (Ret (Some l), g') ->
  Forall2 (fun i r => exists d, Calendar.add_days now i = Some d /\
                                fallback_day (Climate.get_city_climate_info city) d r)
          (range days) l.
Proof.
  unfold generate_realistic_weather_fallback. rewrite try_except_Exception.
  cbv zeta. unfold bind at 1.
  match goal with
  | |- context [for_append ?xs ?f g] =>
      destruct (for_append xs f g) as [[ys | e] g1] eqn:Eloop
  end; [| discriminate].
  intros Hret. unfold ret in Hret. injection Hret as <- <-.
  apply for_append_Forall2 in Eloop.
  eapply Forall2_impl; [exact Eloop |].
  intros i r (s1 & s2 & Hbody). cbv beta in Hbody.
  apply bind_Ret in Hbody as (d & t0 & Hd & Hbody).
  apply of_option_Ret in Hd as [Hd ->].
  apply bind_Ret in Hbody as (n1 & t1 & _ & Hbody).
  apply bind_Ret in Hbody as (n2 & t2 & _ & Hbody).
  apply bind_Ret in Hbody as (n3 & t3 & _ & Hbody).
  apply bind_Ret in Hbody as (n4 & t4 & _ & Hbody).
  exists d. split; [exact Hd |].
  match type of Hbody with
  | context [climate_adjust ?i ?t ?h] => exists t, h; destruct (climate_adjust i t h)
  end.
  unfold ret in Hbody. apply Ret_inj in Hbody as [<- _]. eexists _, _. reflexivity.
Qed.

End FallbackFacts.

(** ** The climate table *)

Section ClimateFacts.
Import Climate.
Local Open Scope Q_scope.

Lemma climate_data_default : climate_data !! "default"%string = Some profile_default.
Proof. vm_compute. reflexivity. Qed.

(** A lookup answers with an entry of the table or with the default. *)
Lemma get_city_climate_info_entry (city : string) :
  In (get_city_climate_info city) (profile_default :: map snd climate_entries).
Proof.
  unfold get_city_climate_info. destruct (climate_data !! city) as [p |] eqn:E.
  - right. apply elem_of_list_to_map_2 in E. apply list_elem_of_In in E.
    apply in_map_iff. exists (city, p). auto.
  - left. reflexivity.
Qed.

(** No baseline temperature is zero: [avg_pressure / avg_temp] is defined. *)
Lemma avg_temp_nonzero (city : string) : ~ avg_temp (get_city_climate_info city) == 0.
Proof.
  pose proof (get_city_climate_info_entry city) as Hin.
  assert (Hall : forallb (fun p => negb (Qeq_bool (avg_temp p) 0))
                         (profile_default :: map snd climate_entries) = true)
    by (vm_compute; reflexivity).
  rewrite forallb_forall in Hall. specialize (Hall _ Hin).
  apply negb_true_iff in Hall. intros Heq. apply Qeq_bool_iff in Heq. congruence.
Qed.

End ClimateFacts.

(** ** Risk levels *)

Section RiskFacts.
Import Num Risk.
Local Open Scope Q_scope.

(** [max] of a sequence is one of its elements and bounds them all. *)
Lemma py_max_list_spec (x : Q) (xs : list Q) :
  In (py_max_list x xs) (x :: xs) /\ forall y, In y (x :: xs) -> y <= py_max_list x xs.
Proof.
  unfold py_max_list. revert x. induction xs as [| z xs IH]; intros x; simpl.
  - split; [left; reflexivity |]. intros y [<- | []]. apply Qle_refl.
  - destruct (IH (py_max x z)) as [Hin Hub]. destruct (py_max_spec x z) as (Hx & Hz & Hcase).
    split.
    + destruct Hin as [Heq | Hin]; [| right; right; exact Hin].
      rewrite <- Heq. destruct Hcase as [E | E]; rewrite E; [left | right; left]; reflexivity.
    + intros y [<- | [<- | Hy]].
      * pose proof (Hub (py_max x z) (or_introl eq_refl)). lra.
      * pose proof (Hub (py_max x z) (or_introl eq_refl)). lra.
      * apply Hub. right. exact Hy.
Qed.

(** The maximum exceeds a threshold exactly when some element does. *)
Lemma py_max_list_gt (c x : Q) (xs : list Q) :
  c < py_max_list x xs <-> Exists (fun y => c < y) (x :: xs).
Proof.
  destruct (py_max_list_spec x xs) as [Hin Hub]. rewrite List.Exists_exists. split.
  - intros Hc. exists (py_max_list x xs). split; assumption.
  - intros (y & Hy & Hc). specialize (Hub y Hy). lra.
Qed.

Lemma Exists_map_temperature (P : Q -> Prop) (ds : list ForecastDay) :
  Exists P (map temperature ds) <-> Exists (fun d => P (temperature d)) ds.
Proof.
  rewrite !List.Exists_exists. split.
  - intros (y & Hy & HP). apply in_map_iff in Hy as (d & <- & Hd). eauto.
  - intros (d & Hd & HP). exists (temperature d). split; [apply in_map; exact Hd | exact HP].
Qed.

End RiskFacts.

(** ** Properties of the risk levels, the features and the synthetic path *)

Section ClaimsA.
Import Py Num.
Local Open Scope Q_scope.

(** C3, amended. Under the arid thresholds (42 and 37), and with the mean
    temperature of the window as the program computes it (the temperatures
    added in binary64 from the left, the sum divided by their number), the
    heatwave level is HIGH exactly when some day is hotter than 42 or that
    mean is above 40; otherwise MEDIUM exactly when some day is hotter than
    37 or that mean is above 35; otherwise LOW. A window that holds a day
    at 43 is HIGH. *)
Theorem C3_heatwave_arid (city : string) (current : option (list ForecastDay))
    (historical : list ForecastDay) (r : Risk.risks) :
  Risk.risk_thresholds (Climate.get_city_climate_info city) = Risk.arid_thresholds ->
  Risk.show_enhanced_disaster_risk city current (Some historical) = Some r ->
  let window := Risk.last7 historical in
  let avg := Float.div (Risk.py_sum (map temperature window)) (Risk.len window) in
  let high := Exists (fun d => 42 < temperature d) window \/ Float.gt avg 40 = true in
  let medium := Exists (fun d => 37 < temperature d) window \/ Float.gt avg 35 = true in
  (Risk.heatwave r = Risk.HIGH <-> high) /\
  (Risk.heatwave r = Risk.MEDIUM <-> ~ high /\ medium) /\
  (Risk.heatwave r = Risk.LOW <-> ~ high /\ ~ medium) /\
  (Exists (fun d => temperature d == 43) window -> Risk.heatwave r = Risk.HIGH).
Proof.
  intros Harid Hrun window avg high medium.
  unfold Risk.show_enhanced_disaster_risk in Hrun.
  destruct current as [[| c cs] |]; try discriminate.
  destruct historical as [| h hs]; [discriminate |].
  fold window in Hrun. destruct window as [| d rest] eqn:Ew; [discriminate |].
  rewrite Harid in Hrun. injection Hrun as <-.
  assert (Hhigh : Qlt_bool 42 (Risk.py_max_list (temperature d) (map temperature rest))
                  || Float.gt avg 40 = true <-> high).
  { rewrite orb_true_iff, Qlt_bool_iff, py_max_list_gt. unfold high.
    change (temperature d :: map temperature rest) with (map temperature (d :: rest)).
    rewrite Exists_map_temperature. reflexivity. }
  assert (Hmed : Qlt_bool 37 (Risk.py_max_list (temperature d) (map temperature rest))
                 || Float.gt avg 35 = true <-> medium).
  { rewrite orb_true_iff, Qlt_bool_iff, py_max_list_gt. unfold medium.
    change (temperature d :: map temperature rest) with (map temperature (d :: rest)).
    rewrite Exists_map_temperature. reflexivity. }
  assert (Hlevel : Risk.heatwave (Risk.assess Risk.arid_thresholds d rest) =
                   if Qlt_bool 42 (Risk.py_max_list (temperature d) (map temperature rest))
                      || Float.gt avg 40 then Risk.HIGH
                   else if Qlt_bool 37 (Risk.py_max_list (temperature d) (map temperature rest))
                      || Float.gt avg 35 then Risk.MEDIUM
                   else Risk.LOW) by reflexivity.
  rewrite Hlevel. clear Hlevel.
  destruct (Qlt_bool 42 _ || Float.gt avg 40) eqn:E1;
    [| destruct (Qlt_bool 37 _ || Float.gt avg 35) eqn:E2].
  - assert (high) by (apply Hhigh; reflexivity).
    repeat split; try tauto; try discriminate.
  - assert (~ high) by (rewrite <- Hhigh; discriminate).
    assert (medium) by (apply Hmed; reflexivity).
    repeat split; try tauto; try discriminate.
    intros H43. exfalso. apply H. left.
    revert H43. apply List.Exists_impl. intros a Ha. cbv beta in Ha. lra.
  - assert (~ high) by (rewrite <- Hhigh; discriminate).
    assert (~ medium) by (rewrite <- Hmed; discriminate).
    repeat split; try tauto; try discriminate.
    intros H43. exfalso. apply H. left.
    revert H43. apply List.Exists_impl. intros a Ha. cbv beta in Ha. lra.
Qed.

End ClaimsA.

(** In [warm_week] no day is above 42 and the mean of the seven temperatures
    is 40, not more; the sum of the program is 280.00000000000006, its mean
    40.00000000000001, and the level is HIGH. *)
Lemma C3_counterexample :
  Risk.risk_thresholds (Climate.get_city_climate_info "jaipur") = Risk.arid_thresholds /\
  Risk.last7 Demo.warm_week = Demo.warm_week /\
  Forall (fun d => temperature d <= 42)%Q Demo.warm_week /\
  (fold_left Qplus (map temperature Demo.warm_week) 0 / 7 == 40)%Q /\
  exists r,
    Risk.show_enhanced_disaster_risk "jaipur" (Some Demo.warm_week) (Some Demo.warm_week)
      = Some r /\
    Risk.heatwave r = Risk.HIGH.
Proof.
  split; [vm_compute; reflexivity |]. split; [reflexivity |]. split.
  - assert (Hall : forallb (fun d => Qle_bool (temperature d) 42) Demo.warm_week = true)
      by (vm_compute; reflexivity).
    rewrite forallb_forall in Hall. apply List.Forall_forall. intros d Hd.
    apply Qle_bool_iff. apply Hall. exact Hd.
  - split; [apply Qeq_bool_iff; vm_compute; reflexivity |].
    eexists. split; vm_compute; reflexivity.
Qed.

(** Jaipur is classed as arid, and a week whose hottest day is at 43 is a
    HIGH heatwave risk there. *)
Lemma C3_heatwave_arid_witness :
  Risk.risk_thresholds (Climate.get_city_climate_info "jaipur") = Risk.arid_thresholds /\
  exists r,
    Risk.show_enhanced_disaster_risk "jaipur" (Some Demo.hot_week) (Some Demo.hot_week) = Some r /\
    Risk.heatwave r = Risk.HIGH.
Proof.
  split; [vm_compute; reflexivity |].
  eexists. split; [vm_compute; reflexivity |].
  refine (proj2 (proj2 (proj2
    (C3_heatwave_arid "jaipur" (Some Demo.hot_week) Demo.hot_week _ _ _))) _).
  - vm_compute; reflexivity.
  - vm_compute; reflexivity.
  - change (Risk.last7 Demo.hot_week) with Demo.hot_week. unfold Demo.hot_week.
    do 3 apply List.Exists_cons_tl. apply List.Exists_cons_hd.
    unfold Demo.day. cbn [temperature]. reflexivity.
Defined.

(** ** The feature vector and the synthetic path *)

Section ClaimsB.
Context `{Numpy}.
Import Py Num.
Local Open Scope Q_scope.

(** C4. Feature construction returns 21 numbers in the fixed order: month,
    day, weekday, the sine and cosine of 2.pi.day_of_year/365.25 and of
    4.pi.day_of_year/365.25, the midday hour terms, the two interaction
    terms avg_temp.avg_humidity/100 and avg_pressure/avg_temp, then cloud
    cover, visibility, wind direction, avg_temp, pressure, wind speed, the
    day of the year, the hour 12, latitude and longitude; all baseline values
    come from one baseline, the profile of the city when a city is given,
    and its temperature is not zero. *)
Theorem C4_feature_vector (date_obj : Calendar.date) (city_name : option string) :
  let b := resolve_baseline city_name in
  let day_of_year := inject_Z (Calendar.tm_yday date_obj) in
  create_weather_features date_obj city_name =
    [ inject_Z (Calendar.month date_obj);
      inject_Z (Calendar.day date_obj);
      inject_Z (Calendar.weekday date_obj);
      np_sin (2 * np_pi * day_of_year / 365.25);
      np_cos (2 * np_pi * day_of_year / 365.25);
      np_sin (4 * np_pi * day_of_year / 365.25);
      np_cos (4 * np_pi * day_of_year / 365.25);
      np_sin (2 * np_pi * 12 / 24);
      np_cos (2 * np_pi * 12 / 24);
      b_avg_temp b * b_avg_humidity b / 100;
      b_avg_pressure b / b_avg_temp b;
      b_cloud_cover b; b_visibility b; b_wind_direction b;
      b_avg_temp b; b_avg_pressure b; b_wind_speed b;
      day_of_year; 12; b_latitude b; b_longitude b ] /\
  List.length (create_weather_features date_obj city_name) = 21%nat /\
  ~ b_avg_temp b == 0 /\
  (forall c s, city_name = Some (String c s) ->
     b = baseline_of_profile (Climate.get_city_climate_info (String c s))).
Proof.
  intros b day_of_year.
  split; [reflexivity |]. split; [reflexivity |]. split.
  - subst b. destruct city_name as [[| c s] |];
      cbn [resolve_baseline b_avg_temp default_baseline baseline_of_profile];
      [lra | apply avg_temp_nonzero | lra].
  - intros c s ->. reflexivity.
Qed.

(** A clip keeps an upper bound that lies over its floor. *)
Lemma np_clip_keeps_ceiling (x lo hi c : Q) : x <= c -> lo <= c -> np_clip x lo hi <= c.
Proof.
  intros Hx Hlo. unfold np_clip.
  destruct (py_min_spec (py_max x lo) hi) as (Hm & _ & _).
  destruct (py_max_spec x lo) as (_ & _ & [E | E]); rewrite E in Hm |- *; lra.
Qed.

(** A day written by the fallback for a tropical profile: humidity within
    60 and 95, temperature within 22 and 38. *)
Lemma tropical_day_bounds (info : Climate.profile) (d : Calendar.date) (r : ForecastDay) :
  Climate.is_tropical info = true -> fallback_day info d r ->
  60 <= humidity r <= 95 /\ 22 <= temperature r <= 38.
Proof.
  intros Htrop (t & h & p & w & ->). unfold climate_adjust. rewrite Htrop.
  cbn [fst snd temperature humidity].
  destruct (py_max_spec h 60) as (_ & H60 & _).
  destruct (np_clip_bounds (py_max h 60) 20 95) as [_ H95]; [lra |].
  pose proof (np_clip_keeps_floor (py_max h 60) 20 95 60 H60) as Hfloor.
  destruct (np_clip_bounds t 22 38) as [H22 H38]; [lra |].
  destruct (np_clip_bounds (np_clip t 22 38) 15 45) as [_ _]; [lra |].
  assert (H22' : 22 <= np_clip (np_clip t 22 38) 15 45) by (apply np_clip_keeps_floor; lra).
  assert (H38' : np_clip (np_clip t 22 38) 15 45 <= 38) by (apply np_clip_keeps_ceiling; lra).
  repeat split.
  - apply round1_ge_60. apply Hfloor. lra.
  - pose proof (round1_le (np_clip (py_max h 60) 20 95) 950) as Hr.
    change (inject_Z 950 / 10) with (950 # 10) in Hr. lra.
  - pose proof (round1_ge (np_clip (np_clip t 22 38) 15 45) 220) as Hr.
    change (inject_Z 220 / 10) with (220 # 10) in Hr. lra.
  - pose proof (round1_le (np_clip (np_clip t 22 38) 15 45) 380) as Hr.
    change (inject_Z 380 / 10) with (380 # 10) in Hr. lra.
Qed.

(** C7. For a location whose climate type is tropical, every humidity the
    synthetic generator writes is at least 60, whatever the noise draws:
    the floor of 60 is applied after the noise and the later clip into
    [20, 95] and the rounding keep it. *)
Theorem C7_tropical_humidity_floor (now : Calendar.date) (city : string) (days : Z)
    (g g' : Generator) (l : list ForecastDay) :
  Climate.is_tropical (Climate.get_city_climate_info city) = true ->
  generate_realistic_weather_fallback now city days g = (Ret (Some l), g') ->
  Forall (fun r => 60 <= humidity r) l.
Proof.
  intros Htrop Hrun. apply fallback_records in Hrun.
  induction Hrun as [| i r ixs rs (d & _ & Hday) _ IH]; constructor; [| exact IH].
  apply (tropical_day_bounds _ d r Htrop Hday).
Qed.

(** C10. A location that is not a key of the climate table gets the
    fallback profile, of climate type 'Tropical Monsoon'. It is then treated
    as tropical: the synthetic path floors its humidity at 60 and clips its
    temperature into [22, 38], and the risk thresholds are the tropical ones
    (heatwave 38/33, drought 60/50, flood 90/80, storm 25/18), not the
    default ones. *)
Theorem C10_unknown_location_is_tropical (city : string) :
  Climate.climate_data !! city = None ->
  let info := Climate.get_city_climate_info city in
  Climate.climate_type info = "Tropical Monsoon"%string /\
  (forall t h, climate_adjust info t h = (np_clip t 22 38, py_max h 60)) /\
  (forall now days g g' l,
     generate_realistic_weather_fallback now city days g = (Ret (Some l), g') ->
     Forall (fun r => 60 <= humidity r /\ 22 <= temperature r <= 38) l) /\
  Risk.risk_thresholds info = Risk.mkthresholds 38 33 60 50 90 80 25 18 /\
  Risk.risk_thresholds info <> Risk.default_thresholds.
Proof.
  intros Hnone info.
  assert (Hinfo : info = Climate.profile_default).
  { subst info. unfold Climate.get_city_climate_info. rewrite Hnone. reflexivity. }
  assert (Htrop : Climate.is_tropical info = true) by (rewrite Hinfo; vm_compute; reflexivity).
  split; [rewrite Hinfo; reflexivity |].
  split; [intros t h; unfold climate_adjust; rewrite Htrop; reflexivity |].
  split.
  - intros now days g g' l Hrun. apply fallback_records in Hrun. fold info in Hrun.
    induction Hrun as [| i r ixs rs (d & _ & Hday) _ IH]; constructor; [| exact IH].
    destruct (tropical_day_bounds _ d r Htrop Hday) as [[Hh _] Ht]. auto.
  - split.
    + unfold Risk.risk_thresholds. rewrite Htrop. reflexivity.
    + unfold Risk.risk_thresholds. rewrite Htrop. discriminate.
Qed.

End ClaimsB.

(** Mumbai is tropical; three synthetic days there stay at 60 or above. *)
Lemma C7_tropical_humidity_floor_witness :
  Climate.is_tropical (Climate.get_city_climate_info "mumbai") = true /\
  exists l,
    @generate_realistic_weather_fallback Demo.numpy Demo.today "mumbai" 3 tt
      = (Py.Ret (Some l), tt) /\
    Forall (fun r => (60 <= humidity r)%Q) l.
Proof.
  split; [vm_compute; reflexivity |].
  eexists. split; [vm_compute; reflexivity |].
  apply (@C7_tropical_humidity_floor Demo.numpy Demo.today "mumbai" 3 tt tt);
    vm_compute; reflexivity.
Defined.

(** "atlantis" is no key of the table, and gets the tropical thresholds. *)
Lemma C10_unknown_location_is_tropical_witness :
  Climate.climate_data !! "atlantis"%string = None /\
  Risk.risk_thresholds (Climate.get_city_climate_info "atlantis") = Risk.tropical_thresholds.
Proof.
  split; [vm_compute; reflexivity |].
  refine (proj1 (proj2 (proj2 (proj2
    (@C10_unknown_location_is_tropical Demo.numpy "atlantis" _))))).
  vm_compute; reflexivity.
Defined.

(** ** The loader on a bucket that lacks one scaler *)

Section ClaimsLoader.
Import Py Demo.

(** C1. In the S3 tier the regressor of a target is stored before its scaler
    is fetched. On a bucket that holds the metadata and the temperature
    regressor but no temperature scaler, the tier returns a bundle whose
    models hold the temperature regressor while no scaler is there: the entry
    is partial. *)
Theorem C1_s3_regressor_without_scaler :
  exists b tr,
    @call artifacts _ (@load_s3_models artifacts s3_without_scaler "mumbai") [] =
      (Ret (Some b), tr) /\
    @has_regressor artifacts b "temperature" = true /\
    @has_scaler artifacts b "temperature" = false.
Proof.
  eexists _, _. split; [vm_compute; reflexivity |].
  split; vm_compute; reflexivity.
Qed.

(** C2. On the same bucket, resolution hands that bundle to the caller: its
    models are not empty, yet no target has both its regressor and its
    scaler, and the model-based forecast refuses it. *)
Theorem C2_bundle_without_usable_target :
  exists b tr,
    @load_location_model artifacts s3_without_scaler "mumbai" [] = (Ret (Some b), tr) /\
    bool_decide (@models artifacts b = ∅) = false /\
    @usable_targets artifacts b = [] /\
    @predict_weather_location numpy artifacts today (Some b) 5 tt = (Ret None, tt).
Proof.
  eexists _, _. split; [vm_compute; reflexivity |].
  repeat split; vm_compute; reflexivity.
Qed.

End ClaimsLoader.

(** ** Runs whose outcome does not depend on the state *)

Section Determinism.
Context `{Artifacts}.
Import Py.

Lemma det_ret {A} (a : A) : deterministic (ret a).
Proof. intros s1 s2. reflexivity. Qed.

Lemma det_of_option {A} (e : exn) (o : option A) : deterministic (of_option e o).
Proof. intros s1 s2. destruct o; reflexivity. Qed.

Lemma det_bind {A B} (m : M process A) (k : A -> M process B) :
  deterministic m -> (forall a, deterministic (k a)) -> deterministic (bind m k).
Proof.
  intros Hm Hk s1 s2. unfold bind. specialize (Hm s1 s2).
  destruct (m s1) as [[a1 | e1] t1], (m s2) as [[a2 | e2] t2]; simpl in Hm; try discriminate.
  - injection Hm as ->. apply Hk.
  - injection Hm as ->. reflexivity.
Qed.

Lemma det_try_except {A} (m : M process A) (c : exn -> bool) (h : exn -> M process A) :
  deterministic m -> (forall e, deterministic (h e)) -> deterministic (try_except m c h).
Proof.
  intros Hm Hh s1 s2. unfold try_except. specialize (Hm s1 s2).
  destruct (m s1) as [[a1 | e1] t1], (m s2) as [[a2 | e2] t2]; simpl in Hm; try discriminate.
  - exact Hm.
  - injection Hm as ->. destruct (c e2); [apply Hh | reflexivity].
Qed.

Lemma det_for_append {A B} (xs : list A) (body : A -> M process B) :
  (forall x, deterministic (body x)) -> deterministic (for_append xs body).
Proof.
  intros Hb. induction xs as [| x xs IH]; simpl; [apply det_ret |].
  apply det_bind; [apply Hb | intros y].
  apply det_bind; [exact IH | intros ys; apply det_ret].
Qed.

(** The scale-then-predict step of one target. *)
Lemma det_target {A} (md : bundle) (k t : string) (x : list Q) (post : Q -> A) :
  deterministic_objects md -> forall zero : A,
  deterministic
    match models md !! k, scalers md !! t with
    | Some rf, Some sc =>
        bind (transform sc x) (fun scaled => bind (predict rf scaled) (fun pred => ret (post pred)))
    | _, _ => ret zero
    end.
Proof.
  intros [Hsc Hrf] zero.
  destruct (models md !! k) as [rf |] eqn:Erf; [| apply det_ret].
  destruct (scalers md !! t) as [sc |] eqn:Esc; [| apply det_ret].
  apply det_bind; [eapply Hsc; exact Esc | intros scaled].
  apply det_bind; [eapply Hrf; exact Erf | intros pred; apply det_ret].
Qed.

End Determinism.

Section ClaimDeterminism.
Context `{Numpy} `{Artifacts}.
Import Py.

(** C9, amended. For a bundle whose scalers and regressors answer a row the
    same way whenever they are asked, two runs of the model-based forecast
    with the same bundle (and the city it names), horizon and current date
    give the same output, whatever the state of the process in either run:
    around the calls on the objects the path reads no state and draws no
    random number. *)
Theorem C9_model_forecast_deterministic (now : Calendar.date)
    (md : option bundle) (days : Z) (s1 s2 : process) :
  (forall b, md = Some b -> deterministic_objects b) ->
  (predict_weather_location now md days s1).1 = (predict_weather_location now md days s2).1.
Proof.
  intros Hobj. revert s1 s2. change (deterministic (predict_weather_location now md days)).
  unfold predict_weather_location.
  apply det_try_except; [| intros e; apply det_ret].
  destruct md as [b |]; [| apply det_ret].
  specialize (Hobj b eq_refl). cbv zeta.
  destruct (bool_decide (models b = ∅) || bool_decide (scalers b = ∅)); [apply det_ret |].
  apply det_bind.
  - apply det_for_append. intros i.
    apply det_bind; [apply det_of_option | intros d; apply det_ret].
  - intros dates. apply det_bind; [| intros predictions; apply det_ret].
    apply det_for_append. intros date_str.
    apply det_bind; [apply det_of_option | intros d].
    apply det_bind; [apply det_target; exact Hobj | intros t].
    apply det_bind; [apply det_target; exact Hobj | intros h].
    apply det_bind; [apply det_target; exact Hobj | intros p].
    apply det_bind; [apply det_target; exact Hobj | intros w].
    apply det_ret.
Qed.

End ClaimDeterminism.

Section DeterminismExamples.
Import Py Demo.

(** The regressor of [counted] answers with the number of calls made so
    far: a second run, in the state the first one left, gives other
    temperatures. *)
Lemma C9_counterexample :
  exists l1 l2 s1 s2,
    @predict_weather_location numpy counting today (Some counted) 2 0%Z = (Ret (Some l1), s1) /\
    @predict_weather_location numpy counting today (Some counted) 2 s1 = (Ret (Some l2), s2) /\
    l1 <> l2.
Proof.
  eexists _, _, _, _. split; [vm_compute; reflexivity |]. split; [vm_compute; reflexivity |].
  intros E. apply (f_equal (map temperature)) in E. vm_compute in E. discriminate E.
Qed.

(** The regressor of [steady] counts its calls too, and answers 23.5 on
    every one. *)
Lemma C9_model_forecast_deterministic_witness :
  (@predict_weather_location numpy counting today (Some steady) 2 0%Z).1 =
  (@predict_weather_location numpy counting today (Some steady) 2 7%Z).1.
Proof.
  apply (@C9_model_forecast_deterministic numpy counting today (Some steady) 2 0%Z 7%Z).
  intros b [= <-]. split.
  - intros t sc x _ s1 s2. reflexivity.
  - intros k rf x Hrf s1 s2.
    assert (Hk : rf = Some 23.5%Q).
    { unfold steady in Hrf. cbn [models] in Hrf.
      apply lookup_insert_Some in Hrf as [[_ <-] | [_ Hrf]]; [reflexivity |].
      rewrite lookup_empty in Hrf. discriminate. }
    subst rf. reflexivity.
Defined.

End DeterminismExamples.

(** ** The access log of the two tiers *)

Section Logs.
Context `{Artifacts}.
Import Py.
Variable P : event -> bool.

Lemma logs_ret {A} (a : A) : logs_only P (ret a).
Proof. intros st. exists []. rewrite app_nil_r. auto. Qed.

Lemma logs_lift {A} (o : outcome A) : logs_only P (lift o).
Proof. intros st. exists []. rewrite app_nil_r. auto. Qed.

Lemma logs_get : logs_only P get.
Proof. intros st. exists []. rewrite app_nil_r. auto. Qed.

Lemma logs_log (e : event) : P e = true -> logs_only P (log e).
Proof. intros He st. exists [e]. simpl. rewrite He. auto. Qed.

Lemma logs_set_model (k : string) (v : pyobj) : logs_only P (set_model k v).
Proof. intros st. exists []. rewrite app_nil_r. auto. Qed.

Lemma logs_set_scaler (k : string) (v : pyobj) : logs_only P (set_scaler k v).
Proof. intros st. exists []. rewrite app_nil_r. auto. Qed.

Lemma logs_bind {A B} (m : M frame A) (k : A -> M frame B) :
  logs_only P m -> (forall a, logs_only P (k a)) -> logs_only P (bind m k).
Proof.
  intros Hm Hk st. unfold bind. destruct (Hm st) as (evs & Hevs & Hall).
  destruct (m st) as [[a | e] st1]; simpl in Hevs.
  - destruct (Hk a st1) as (evs' & Hevs' & Hall').
    exists (evs ++ evs'). rewrite Hevs', Hevs, app_assoc, forallb_app, Hall, Hall'. auto.
  - exists evs. auto.
Qed.

Lemma logs_try_except {A} (m : M frame A) (c : exn -> bool) (h : exn -> M frame A) :
  logs_only P m -> (forall e, logs_only P (h e)) -> logs_only P (try_except m c h).
Proof.
  intros Hm Hh st. unfold try_except. destruct (Hm st) as (evs & Hevs & Hall).
  destruct (m st) as [[a | e] st1]; simpl in Hevs.
  - exists evs. auto.
  - destruct (c e).
    + destruct (Hh e st1) as (evs' & Hevs' & Hall').
      exists (evs ++ evs'). rewrite Hevs', Hevs, app_assoc, forallb_app, Hall, Hall'. auto.
    + exists evs. auto.
Qed.

Lemma logs_for_each {A} (xs : list A) (body : A -> M frame unit) :
  (forall x, logs_only P (body x)) -> logs_only P (for_each xs body).
Proof.
  intros Hb. induction xs as [| x xs IH]; simpl; [apply logs_ret |].
  apply logs_bind; [apply Hb | intros _; exact IH].
Qed.

End Logs.

(** Steps through a tier: sequences, handlers, loops and branches. *)
Ltac logs_step :=
  first
    [ apply logs_ret | apply logs_lift | apply logs_get
    | apply logs_set_model | apply logs_set_scaler
    | apply logs_log; reflexivity
    | apply logs_bind; [| intros ?]
    | apply logs_try_except; [| intros ?]
    | apply logs_for_each; intros ?
    | match goal with
      | |- logs_only _ (match ?x with _ => _ end) => destruct x
      | |- logs_only _ (if ?b then _ else _) => destruct b
      end ].

Section TierLogs.
Context `{Artifacts}.
Import Py.
Variable w : world.

Lemma load_s3_models_logs (city_name : string) :
  logs_only is_remote (load_s3_models w city_name).
Proof.
  unfold load_s3_models, get_object. repeat logs_step.
Qed.

Lemma load_local_model_logs (city_name : string) :
  logs_only is_local (load_local_model w city_name).
Proof.
  unfold load_local_model, exists_, read. repeat logs_step.
Qed.

(** A tier is wrapped in [except Exception]: it returns. *)
Lemma load_s3_models_returns (city_name : string) (st : frame) :
  exists r, (load_s3_models w city_name st).1 = Ret r.
Proof.
  unfold load_s3_models. rewrite try_except_Exception.
  match goal with |- context [match ?m with _ => _ end] => destruct m as [[r | e] st'] end;
    simpl; eauto.
Qed.

Lemma load_local_model_returns (city_name : string) (st : frame) :
  exists r, (load_local_model w city_name st).1 = Ret r.
Proof.
  unfold load_local_model. rewrite try_except_Exception.
  match goal with |- context [match ?m with _ => _ end] => destruct m as [[r | e] st'] end;
    simpl; eauto.
Qed.

(** Calling a tier: it returns, and the log grows by its accesses. *)
Lemma call_tier {A} (P : event -> bool) (tier : M frame (option A)) (tr : list event) :
  logs_only P tier -> (forall st, exists r, (tier st).1 = Ret r) ->
  exists r evs, call tier tr = (Ret r, tr ++ evs) /\ forallb P evs = true.
Proof.
  intros Hlogs Hret. unfold call.
  destruct (Hlogs (mkframe tr ∅ ∅)) as (evs & Hevs & Hall).
  destruct (Hret (mkframe tr ∅ ∅)) as (r & Hr).
  destruct (tier (mkframe tr ∅ ∅)) as [o st]. simpl in *. subst o.
  exists r, evs. rewrite Hevs. auto.
Qed.

(** C8. Resolution runs the S3 tier first; that tier returns whatever
    happens inside it and touches only S3. If it yields a bundle, that
    bundle is the result and the local store is not touched. Only if it
    yields none is the local tier run, which returns too and touches only
    the file system; its result is the result. Resolution never raises. *)
Theorem C8_two_tier_resolution (city_name : string) (tr : list event) :
  exists (s3_model_data : option bundle) (remote : list event),
    call (load_s3_models w city_name) tr = (Ret s3_model_data, tr ++ remote) /\
    forallb is_remote remote = true /\
    match s3_model_data with
    | Some b => load_location_model w city_name tr = (Ret (Some b), tr ++ remote)
    | None =>
        exists (local_model_data : option bundle) (local : list event),
          call (load_local_model w city_name) (tr ++ remote) =
            (Ret local_model_data, (tr ++ remote) ++ local) /\
          forallb is_local local = true /\
          load_location_model w city_name tr =
            (Ret local_model_data, (tr ++ remote) ++ local)
    end.
Proof.
  destruct (call_tier is_remote (load_s3_models w city_name) tr
              (load_s3_models_logs city_name) (load_s3_models_returns city_name))
    as (r1 & remote & Hs3 & Hremote).
  exists r1, remote. split; [exact Hs3 |]. split; [exact Hremote |].
  assert (Hstart : load_location_model w city_name tr =
            match r1 with
            | Some b => (Ret (Some b), tr ++ remote)
            | None =>
                match call (load_local_model w city_name) (tr ++ remote) with
                | (Ret r2, tr') => (Ret r2, tr')
                | (Raise _, tr') => (Ret None, tr')
                end
            end).
  { unfold load_location_model. rewrite try_except_Exception. unfold bind at 1. rewrite Hs3.
    destruct r1 as [b |]; [reflexivity |]. unfold bind.
    destruct (call (load_local_model w city_name) (tr ++ remote)) as [[[b |] | e] tr'];
      reflexivity. }
  rewrite Hstart. destruct r1 as [b |]; [reflexivity |].
  destruct (call_tier is_local (load_local_model w city_name) (tr ++ remote)
              (load_local_model_logs city_name) (load_local_model_returns city_name))
    as (r2 & local & Hlocal & Hlocal').
  exists r2, local. split; [exact Hlocal |]. split; [exact Hlocal' |].
  rewrite Hlocal. reflexivity.
Qed.

End TierLogs.

(** ** Adding days *)

Section AddDays.
Import Calendar.
Local Open Scope Z_scope.

Lemma add_days_Some (now : date) (i : Z) (d : date) :
  add_days now i = Some d -> valid d = true /\ toordinal d = toordinal now + i.
Proof.
  unfold add_days. intros Hadd.
  destruct ((1 <=? toordinal now + i) && (toordinal now + i <=? _MAXORDINAL)) eqn:E; [| discriminate].
  apply andb_prop in E. destruct E as [E1 E2].
  assert (Hd : d = fromordinal (toordinal now + i)) by congruence. subst d.
  split; [apply fromordinal_valid | apply toordinal_fromordinal]; lia.
Qed.

Lemma add_days_in_range (now : date) (i : Z) :
  1 <= toordinal now + i <= _MAXORDINAL ->
  add_days now i = Some (fromordinal (toordinal now + i)).
Proof.
  intros Hr. unfold add_days.
  replace ((1 <=? toordinal now + i) && (toordinal now + i <=? _MAXORDINAL)) with true; [reflexivity |].
  symmetry. apply andb_true_intro. split; lia.
Qed.

Lemma add_days_overflow (now : date) (i : Z) :
  _MAXORDINAL < toordinal now + i -> add_days now i = None.
Proof.
  intros Hr. unfold add_days.
  replace (toordinal now + i <=? _MAXORDINAL) with false by (symmetry; apply Z.leb_gt; lia).
  rewrite andb_false_r. reflexivity.
Qed.

Lemma add_days_0 (now : date) : valid now = true -> add_days now 0 = Some now.
Proof.
  intros Hv. pose proof (toordinal_range now Hv).
  rewrite add_days_in_range by lia. rewrite Z.add_0_r, fromordinal_toordinal; auto.
Qed.

Lemma in_range (days i : Z) : In i (Py.range days) <-> 0 <= i < days.
Proof.
  unfold Py.range. rewrite in_map_iff. split.
  - intros (n & <- & Hn). apply in_seq in Hn. lia.
  - intros Hi. exists (Z.to_nat i). split; [lia | apply in_seq; lia].
Qed.

Lemma length_range (days : Z) : List.length (Py.range days) = Z.to_nat days.
Proof. unfold Py.range. rewrite length_map, length_seq. reflexivity. Qed.

Lemma head_range (days i : Z) : head (Py.range days) = Some i -> i = 0.
Proof.
  unfold Py.range. destruct (Z.to_nat days); simpl; [discriminate |]. intros [= <-]. reflexivity.
Qed.

End AddDays.

(** ** Computations that return *)

Section Returns.
Import Py.
Context {S : Type}.

Lemma returns_ret {A} (a : A) : returns (S:=S) (ret a).
Proof. intros s. eexists _, _. reflexivity. Qed.

Lemma returns_bind {A B} (m : M S A) (k : A -> M S B) :
  returns m -> (forall a, returns (k a)) -> returns (bind m k).
Proof.
  intros Hm Hk s. unfold bind. destruct (Hm s) as (a & s1 & ->). apply Hk.
Qed.

Lemma returns_of_option {A} (e : exn) (a : A) : returns (S:=S) (of_option e (Some a)).
Proof. apply returns_ret. Qed.

Lemma returns_for_append {A B} (body : A -> M S B) (xs : list A) :
  (forall x, In x xs -> returns (body x)) -> returns (for_append xs body).
Proof.
  intros Hb s. apply for_append_returns. intros x Hx s0. apply (Hb x Hx).
Qed.

End Returns.

(** ** Both paths, day by day *)

Section PathFacts.
Context `{Numpy} `{Artifacts}.
Import Py Num.

Lemma returns_normal (loc scale : Q) : returns (normal loc scale).
Proof.
  intros g. unfold normal. destruct (np_random_normal loc scale g) as [x g1].
  eexists _, _. reflexivity.
Qed.

Lemma fallback_day_date (info : Climate.profile) (d : Calendar.date) (r : ForecastDay) :
  fallback_day info d r -> date r = Calendar.strftime d.
Proof. intros (t & h & p & w & ->). reflexivity. Qed.

(** A day written for the date that [add_days] gave is dated. *)
Lemma dated_add_days (now d : Calendar.date) (i : Z) (r : ForecastDay) :
  Calendar.add_days now i = Some d -> date r = Calendar.strftime d -> dated now i r.
Proof.
  intros Hadd Hdate. apply add_days_Some in Hadd as [Hv Hord].
  exists d. rewrite Hdate. split; [apply strptime_strftime; exact Hv | auto].
Qed.

Lemma consecutive_from_days (now : Calendar.date) (days : Z) (l : list ForecastDay) :
  Calendar.valid now = true ->
  Forall2 (fun i r => exists d, Calendar.add_days now i = Some d /\
                                date r = Calendar.strftime d) (range days) l ->
  consecutive_from now days l.
Proof.
  intros Hv Hall. split; [| split].
  - rewrite <- (Forall2_length _ _ _ Hall). apply length_range.
  - eapply Forall2_impl; [exact Hall |]. intros i r (d & Hadd & Hdate).
    eapply dated_add_days; eauto.
  - intros r Hhead. remember (range days) as xs eqn:Exs.
    destruct Hall as [| i r' ixs rs (d & Hadd & Hdate) Hrest];
      cbn [head] in Hhead; [discriminate |].
    assert (Hr : r' = r) by congruence. subst r'.
    assert (Hi : i = 0%Z) by (apply (head_range days); rewrite <- Exs; reflexivity).
    subst i. rewrite add_days_0 in Hadd by exact Hv. congruence.
Qed.

Lemma fallback_consecutive (now : Calendar.date) (city : string) (days : Z)
    (g g' : Generator) (l : list ForecastDay) :
  Calendar.valid now = true ->
  generate_realistic_weather_fallback now city days g = (Ret (Some l), g') ->
  consecutive_from now days l.
Proof.
  intros Hv Hrun. apply fallback_records in Hrun. apply consecutive_from_days; [exact Hv |].
  eapply Forall2_impl; [exact Hrun |]. intros i r (d & Hadd & Hday).
  exists d. split; [exact Hadd | eapply fallback_day_date; exact Hday].
Qed.

Lemma fallback_returns (now : Calendar.date) (city : string) (days : Z) (g : Generator) :
  (forall i, (0 <= i < days)%Z ->
     (1 <= Calendar.toordinal now + i <= Calendar._MAXORDINAL)%Z) ->
  exists l g', generate_realistic_weather_fallback now city days g = (Ret (Some l), g').
Proof.
  intros Hrange. unfold generate_realistic_weather_fallback. rewrite try_except_Exception.
  cbv zeta. unfold bind at 1.
  match goal with
  | |- context [for_append ?xs ?f g] =>
      assert (Hloop : returns (for_append xs f))
  end.
  { apply returns_for_append. intros i Hi. apply in_range in Hi.
    rewrite (add_days_in_range now i (Hrange i Hi)).
    apply returns_bind; [apply returns_of_option | intros d].
    do 4 (apply returns_bind; [apply returns_normal | intros ?]).
    match goal with |- context [climate_adjust ?i ?t ?h] => destruct (climate_adjust i t h) end.
    apply returns_ret. }
  destruct (Hloop g) as (ys & g1 & ->). eexists _, _. reflexivity.
Qed.

Lemma fallback_overflow (now : Calendar.date) (city : string) (days : Z) (g : Generator) :
  (exists i, (0 <= i < days)%Z /\ (Calendar._MAXORDINAL < Calendar.toordinal now + i)%Z) ->
  exists g', generate_realistic_weather_fallback now city days g = (Ret None, g').
Proof.
  intros (i & Hi & Hover). unfold generate_realistic_weather_fallback.
  rewrite try_except_Exception. cbv zeta. unfold bind at 1.
  match goal with
  | |- context [for_append ?xs ?f g] =>
      destruct (for_append_raises f xs i) with (s := g) as (e & g1 & ->)
  end.
  - apply in_range. exact Hi.
  - intros s. unfold bind. rewrite (add_days_overflow now i Hover). simpl.
    eexists _, _. reflexivity.
  - eexists. reflexivity.
Qed.

End PathFacts.

Section PredictFacts.
Context `{Numpy} `{Artifacts}.
Import Py Num.
Local Open Scope Q_scope.

Lemma try_except_Some {S A} (body : M S (option A)) (s s' : S) (a : A) :
  try_except body Exception (fun _ => ret None) s = (Ret (Some a), s') ->
  body s = (Ret (Some a), s').
Proof.
  rewrite try_except_Exception. destruct (body s) as [[o | e] s1]; intros Heq; [exact Heq |].
  apply Ret_inj in Heq as [Heq _]. discriminate.
Qed.

Lemma Forall2_chain {A B C} (R1 : A -> B -> Prop) (R2 : B -> C -> Prop)
    (xs : list A) (ys : list B) (zs : list C) :
  Forall2 R1 xs ys -> Forall2 R2 ys zs ->
  Forall2 (fun x z => exists y, R1 x y /\ R2 y z) xs zs.
Proof.
  intros H12. revert zs. induction H12 as [| x y xs ys Hxy _ IH]; intros zs H23.
  - inversion H23. constructor.
  - inversion H23 as [| y' z ys' zs' Hyz Hrest]; subst. constructor; [eauto | apply IH; exact Hrest].
Qed.

Lemma Forall2_In_r {A B} (R : A -> B -> Prop) (xs : list A) (ys : list B) (y : B) :
  Forall2 R xs ys -> In y ys -> exists x, In x xs /\ R x y.
Proof.
  induction 1 as [| x y' xs ys Hxy _ IH]; intros Hin; [destruct Hin |].
  destruct Hin as [<- | Hin].
  - exists x. split; [left; reflexivity | exact Hxy].
  - destruct (IH Hin) as (x' & Hx' & HR). exists x'. split; [right; exact Hx' | exact HR].
Qed.

(** The records of the model-based path, day by day: each is what a run of
    [model_day] returned. *)
Lemma predict_records (now : Calendar.date) (md : bundle) (days : Z)
    (s s' : process) (l : list ForecastDay) :
  predict_weather_location now (Some md) days s = (Ret (Some l), s') ->
  Forall2 (fun i r => exists d s0 s1, Calendar.add_days now i = Some d /\
                                      model_day md d s0 = (Ret r, s1))
          (range days) l.
Proof.
  unfold predict_weather_location. intros Hrun. apply try_except_Some in Hrun.
  cbv beta iota zeta in Hrun.
  destruct (bool_decide (models md = ∅) || bool_decide (scalers md = ∅)).
  { apply Ret_inj in Hrun as [Hrun _]. discriminate. }
  apply bind_Ret in Hrun as (dates & s1 & Hdates & Hrun).
  apply bind_Ret in Hrun as (preds & s2 & Hpreds & Hrun).
  apply Ret_inj in Hrun as [Hl _]. assert (preds = l) by congruence. subst preds.
  apply for_append_Forall2 in Hdates. apply for_append_Forall2 in Hpreds.
  pose proof (Forall2_chain _ _ _ _ _ Hdates Hpreds) as Hall.
  eapply Forall2_impl; [exact Hall |]. clear.
  intros i r (date_str & (t1 & t2 & H1) & (t3 & t4 & H2)).
  apply bind_Ret in H1 as (d & t5 & Hd & H1). apply of_option_Ret in Hd as [Hd _].
  apply Ret_inj in H1 as [<- _].
  apply bind_Ret in H2 as (date_obj & t6 & Hp & H2). apply of_option_Ret in Hp as [Hp _].
  apply add_days_Some in Hd as Hv. destruct Hv as [Hv _].
  rewrite (strptime_strftime d Hv) in Hp. assert (date_obj = d) by congruence. subst date_obj.
  exists d, t6, t4. split; [exact Hd | exact H2].
Qed.

(** The four fields of a record that [model_day] returned, in the order of
    the calls, and its date. *)
Lemma model_day_fields (md : bundle) (d : Calendar.date) (s0 s4 : process) (r : ForecastDay) :
  model_day md d s0 = (Ret r, s4) ->
  let x := create_weather_features d (Some (city md)) in
  date r = Calendar.strftime d /\
  exists s1 s2 s3,
    model_field md "temperature" (fun v => v) x s0 = (Ret (temperature r), s1) /\
    model_field md "humidity" (fun v => py_max 0 (py_min 100 v)) x s1 = (Ret (humidity r), s2) /\
    model_field md "pressure" (fun v => v) x s2 = (Ret (pressure r), s3) /\
    model_field md "wind_speed" (fun v => py_max 0 v) x s3 = (Ret (wind_speed r), s4).
Proof.
  unfold model_day. cbv zeta. intros Hrun.
  apply bind_Ret in Hrun as (t & s1 & Ht & Hrun).
  apply bind_Ret in Hrun as (h & s2 & Hh & Hrun).
  apply bind_Ret in Hrun as (p & s3 & Hp & Hrun).
  apply bind_Ret in Hrun as (w & s4' & Hw & Hrun).
  apply Ret_inj in Hrun as [<- <-]. cbn [date temperature humidity pressure wind_speed].
  split; [reflexivity |]. exists s1, s2, s3. auto.
Qed.

(** One field: the scaler and the regressor answered, or the target is not
    in the bundle. *)
Lemma model_field_Ret (md : bundle) (target : string) (post : Q -> Q) (x : list Q)
    (s s' : process) (v : Q) :
  model_field md target post x s = (Ret v, s') ->
  v = 0 \/ exists pred, v = round1 (post pred).
Proof.
  unfold model_field.
  destruct (models md !! _) as [rf |]; [| intros Hr; apply Ret_inj in Hr as [<- _]; left; reflexivity].
  destruct (scalers md !! _) as [sc |]; [| intros Hr; apply Ret_inj in Hr as [<- _]; left; reflexivity].
  intros Hr. apply bind_Ret in Hr as (scaled & s1 & _ & Hr).
  apply bind_Ret in Hr as (pred & s2 & _ & Hr). apply Ret_inj in Hr as [<- _].
  right. exists pred. reflexivity.
Qed.

(** The value written for one target stays within bounds that hold for 0 and
    that rounding keeps. *)
Lemma model_field_humidity (md : bundle) (x : list Q) (s s' : process) (v : Q) :
  model_field md "humidity" (fun v => py_max 0 (py_min 100 v)) x s = (Ret v, s') ->
  0 <= v <= 100.
Proof.
  intros Hr. apply model_field_Ret in Hr as [-> | (pred & ->)]; [lra |].
  destruct (py_max_spec 0 (py_min 100 pred)) as (Hge & _ & [E | E]).
  - rewrite E. split; [apply round1_ge_0 | apply round1_le_100]; lra.
  - destruct (py_min_spec 100 pred) as (H100 & _ & _).
    split; [apply round1_ge_0 | apply round1_le_100; rewrite E]; lra.
Qed.

Lemma model_field_wind (md : bundle) (x : list Q) (s s' : process) (v : Q) :
  model_field md "wind_speed" (fun v => py_max 0 v) x s = (Ret v, s') ->
  0 <= v.
Proof.
  intros Hr. apply model_field_Ret in Hr as [-> | (pred & ->)]; [lra |].
  destruct (py_max_spec 0 pred) as (Hge & _ & _). apply round1_ge_0. exact Hge.
Qed.

(** One field returns when no call on the objects of the bundle raises. *)
Lemma model_field_returns (md : bundle) (target : string) (post : Q -> Q) (x : list Q) :
  calls_return md -> returns (model_field md target post x).
Proof.
  intros [Hsc Hrf]. unfold model_field.
  destruct (models md !! _) as [rf |] eqn:Erf; [| apply returns_ret].
  destruct (scalers md !! _) as [sc |] eqn:Esc; [| apply returns_ret].
  apply returns_bind; [eapply Hsc; exact Esc | intros scaled].
  apply returns_bind; [eapply Hrf; exact Erf | intros pred; apply returns_ret].
Qed.

(** The model-based path returns a forecast when the bundle passes its
    guard, every day of the horizon is in the calendar and no call on the
    objects of the bundle raises. *)
Lemma predict_returns (now : Calendar.date) (md : bundle) (days : Z) (s : process) :
  models md <> ∅ -> scalers md <> ∅ -> calls_return md ->
  (forall i, (0 <= i < days)%Z ->
     (1 <= Calendar.toordinal now + i <= Calendar._MAXORDINAL)%Z) ->
  exists l s', predict_weather_location now (Some md) days s = (Ret (Some l), s').
Proof.
  intros Hm Hs Hcalls Hrange. unfold predict_weather_location. rewrite try_except_Exception.
  cbv beta iota zeta.
  rewrite (bool_decide_eq_false_2 _ Hm), (bool_decide_eq_false_2 _ Hs). cbn [orb].
  unfold bind at 1.
  match goal with
  | |- context [for_append (range days) ?f s] =>
      assert (Hloop : returns (for_append (range days) f))
  end.
  { apply returns_for_append. intros i Hi. apply in_range in Hi.
    rewrite (add_days_in_range now i (Hrange i Hi)).
    apply returns_bind; [apply returns_of_option | intros d; apply returns_ret]. }
  destruct (Hloop s) as (dates & s1 & Hdates). rewrite Hdates.
  apply for_append_Forall2 in Hdates.
  unfold bind at 1.
  match goal with
  | |- context [for_append dates ?f s1] =>
      assert (Hloop2 : returns (for_append dates f))
  end.
  { apply returns_for_append. intros date_str Hin.
    destruct (Forall2_In_r _ _ _ _ Hdates Hin) as (i & _ & t1 & t2 & Hi).
    apply bind_Ret in Hi as (d & t3 & Hd & Hi). apply of_option_Ret in Hd as [Hd _].
    apply Ret_inj in Hi as [<- _]. apply add_days_Some in Hd as [Hv _].
    rewrite (strptime_strftime d Hv).
    apply returns_bind; [apply returns_of_option | intros d']. cbv zeta.
    apply returns_bind;
      [exact (model_field_returns md "temperature" (fun v => v) _ Hcalls) | intros t].
    apply returns_bind;
      [exact (model_field_returns md "humidity" (fun v => py_max 0 (py_min 100 v)) _ Hcalls)
      | intros h].
    apply returns_bind;
      [exact (model_field_returns md "pressure" (fun v => v) _ Hcalls) | intros p].
    apply returns_bind;
      [exact (model_field_returns md "wind_speed" (fun v => py_max 0 v) _ Hcalls) | intros w].
    apply returns_ret. }
  destruct (Hloop2 s1) as (preds & s2 & ->). eexists _, _. reflexivity.
Qed.

Lemma predict_consecutive (now : Calendar.date) (md : bundle) (days : Z)
    (s s' : process) (l : list ForecastDay) :
  Calendar.valid now = true ->
  predict_weather_location now (Some md) days s = (Ret (Some l), s') ->
  consecutive_from now days l.
Proof.
  intros Hv Hrun. apply predict_records in Hrun. apply consecutive_from_days; [exact Hv |].
  eapply Forall2_impl; [exact Hrun |]. intros i r (d & s0 & s1 & Hadd & Hday).
  exists d. split; [exact Hadd |]. apply model_day_fields in Hday as [Hdate _]. exact Hdate.
Qed.

(** Past the last day of the calendar the model-based path returns None,
    whatever the bundle. *)
Lemma predict_overflow (now : Calendar.date) (md : option bundle) (days : Z) (s : process) :
  (exists i, (0 <= i < days)%Z /\ (Calendar._MAXORDINAL < Calendar.toordinal now + i)%Z) ->
  exists s', predict_weather_location now md days s = (Ret None, s').
Proof.
  intros (i & Hi & Hover). unfold predict_weather_location. rewrite try_except_Exception.
  destruct md as [b |]; [| eexists; reflexivity]. cbv beta iota zeta.
  destruct (bool_decide (models b = ∅) || bool_decide (scalers b = ∅)); [eexists; reflexivity |].
  unfold bind at 1.
  match goal with
  | |- context [for_append (range days) ?f s] =>
      destruct (for_append_raises f (range days) i) with (s := s) as (e & s1 & ->)
  end.
  - apply in_range. exact Hi.
  - intros s0. unfold bind. rewrite (add_days_overflow now i Hover). simpl.
    eexists _, _. reflexivity.
  - eexists. reflexivity.
Qed.

End PredictFacts.

Section ClaimsPaths.
Context `{Numpy} `{Artifacts}.
Import Py Num.
Local Open Scope Q_scope.

(** C5, amended. When the last day of the horizon, today + N - 1, is still
    in the calendar of [datetime] (up to 9999-12-31), the synthetic path
    returns exactly N records, and so does the model-based path for a bundle
    whose models and scalers are not empty and whose scalers and regressors
    do not raise; the date texts are the consecutive calendar days from
    today on: the record at offset i parses to the day whose ordinal is
    today's plus i, and the first record carries today's date. When that
    last day is past the calendar, both paths return None. *)
Theorem C5_forecast_days (now : Calendar.date) (days : Z) :
  Calendar.valid now = true ->
  ((Calendar.toordinal now + days - 1 <= Calendar._MAXORDINAL)%Z ->
   (forall city g, exists l g',
      generate_realistic_weather_fallback now city days g = (Ret (Some l), g') /\
      consecutive_from now days l) /\
   (forall (md : bundle) (s : process),
      models md <> ∅ -> scalers md <> ∅ -> calls_return md ->
      exists l s',
        predict_weather_location now (Some md) days s = (Ret (Some l), s') /\
        consecutive_from now days l)) /\
  ((Calendar._MAXORDINAL < Calendar.toordinal now + days - 1)%Z ->
   (forall city g, exists g',
      generate_realistic_weather_fallback now city days g = (Ret None, g')) /\
   (forall (md : option bundle) (s : process), exists s',
      predict_weather_location now md days s = (Ret None, s'))).
Proof.
  intros Hv. pose proof (toordinal_range now Hv) as Hnow. split.
  - intros Hlast.
    assert (Hrange : forall i, (0 <= i < days)%Z ->
              (1 <= Calendar.toordinal now + i <= Calendar._MAXORDINAL)%Z) by (intros i Hi; lia).
    split.
    + intros city g. destruct (fallback_returns now city days g Hrange) as (l & g' & Hrun).
      exists l, g'. split; [exact Hrun | eapply fallback_consecutive; eauto].
    + intros md s Hm Hs Hcalls.
      destruct (predict_returns now md days s Hm Hs Hcalls Hrange) as (l & s' & Hrun).
      exists l, s'. split; [exact Hrun | eapply predict_consecutive; eauto].
  - intros Hover.
    assert (Hi : exists i, (0 <= i < days)%Z /\
                           (Calendar._MAXORDINAL < Calendar.toordinal now + i)%Z)
      by (exists (days - 1)%Z; split; lia).
    split.
    + intros city g. apply fallback_overflow. exact Hi.
    + intros md s. apply predict_overflow. exact Hi.
Qed.

(** C6, amended. In every record of a model-based forecast each field is,
    when the bundle has both the regressor and the scaler of its target, the
    prediction on the features of that day, clamped (humidity into [0, 100],
    wind speed to 0 and above, temperature and pressure not at all) and then
    rounded to one decimal place; and it is exactly 0 when the target is
    absent. The four fields are filled in the order temperature, humidity,
    pressure, wind speed, each call from the state the one before it left.
    So humidity lies in [0, 100] and wind speed is not negative. *)
Theorem C6_model_fields (now : Calendar.date) (md : bundle) (days : Z)
    (s s' : process) (l : list ForecastDay) :
  predict_weather_location now (Some md) days s = (Ret (Some l), s') ->
  Forall2 (fun i r =>
     exists d, Calendar.add_days now i = Some d /\
       let x := create_weather_features d (Some (city md)) in
       exists s0 s1 s2 s3 s4,
         model_field md "temperature" (fun v => v) x s0 = (Ret (temperature r), s1) /\
         model_field md "humidity" (fun v => py_max 0 (py_min 100 v)) x s1
           = (Ret (humidity r), s2) /\
         model_field md "pressure" (fun v => v) x s2 = (Ret (pressure r), s3) /\
         model_field md "wind_speed" (fun v => py_max 0 v) x s3 = (Ret (wind_speed r), s4))
    (range days) l /\
  Forall (fun r => 0 <= humidity r <= 100 /\ 0 <= wind_speed r) l.
Proof.
  intros Hrun. apply predict_records in Hrun. split.
  - eapply Forall2_impl; [exact Hrun |]. intros i r (d & s0 & s4 & Hadd & Hday).
    exists d. split; [exact Hadd |]. cbv zeta.
    apply model_day_fields in Hday as (_ & s1 & s2 & s3 & Hfields).
    exists s0, s1, s2, s3, s4. exact Hfields.
  - clear -Hrun.
    induction Hrun as [| i r ixs rs (d & s0 & s4 & _ & Hday) _ IH]; constructor; [| exact IH].
    apply model_day_fields in Hday as (_ & s1 & s2 & s3 & _ & Hh & _ & Hw).
    split; [eapply model_field_humidity; exact Hh | eapply model_field_wind; exact Hw].
Qed.

End ClaimsPaths.

(** ** The two paths on concrete inputs *)

Section PathExamples.
Import Py Demo.
Local Open Scope Q_scope.

(** A horizon of 3,000,000 days from 2025-11-05 passes 9999-12-31: adding
    the days raises OverflowError, which the path catches, and no record is
    returned. The bundle that resolution returns for the bucket without the
    scaler has no scaler at all, and the bundle [unfitted] has a scaler that
    raises: for either the model-based path returns no record for a horizon
    of three days. *)
Lemma C5_counterexample :
  @generate_realistic_weather_fallback numpy today "mumbai" 3000000 tt = (Ret None, tt) /\
  (exists b tr,
     @load_location_model artifacts s3_without_scaler "mumbai" [] = (Ret (Some b), tr) /\
     @predict_weather_location numpy artifacts today (Some b) 3 tt = (Ret None, tt)) /\
  @predict_weather_location numpy artifacts today (Some unfitted) 3 tt = (Ret None, tt).
Proof.
  split; [| split].
  - destruct (@fallback_overflow numpy today "mumbai" 3000000 tt) as ([] & Heq); [| exact Heq].
    exists 2999999%Z. split; [lia |]. vm_compute. reflexivity.
  - eexists _, _. split.
    + vm_compute. reflexivity.
    + vm_compute. reflexivity.
  - vm_compute. reflexivity.
Qed.

(** The objects of [two_targets] do not raise. *)
Lemma two_targets_calls_return : @calls_return artifacts two_targets.
Proof.
  split.
  - intros t sc x Hsc s.
    assert (Hk : sc = 0).
    { unfold two_targets in Hsc. cbn [scalers] in Hsc.
      apply lookup_insert_Some in Hsc as [[_ <-] | [_ Hsc]]; [reflexivity |].
      apply lookup_insert_Some in Hsc as [[_ <-] | [_ Hsc]]; [reflexivity |].
      rewrite lookup_empty in Hsc. discriminate. }
    subst sc. eexists _, _. reflexivity.
  - intros k rf x _ s. eexists _, _. reflexivity.
Qed.

Lemma two_targets_models : @models artifacts two_targets <> ∅.
Proof.
  intros E. apply (f_equal (fun m => m !! "temperature_rf"%string)) in E.
  vm_compute in E. discriminate.
Qed.

Lemma two_targets_scalers : @scalers artifacts two_targets <> ∅.
Proof.
  intros E. apply (f_equal (fun m => m !! "temperature"%string)) in E.
  vm_compute in E. discriminate.
Qed.

(** Five days from 2025-11-05, for pune and for [two_targets]; three days
    from 9999-12-30. *)
Lemma C5_forecast_days_witness :
  (exists l g',
     @generate_realistic_weather_fallback numpy today "pune" 5 tt = (Ret (Some l), g') /\
     consecutive_from today 5 l) /\
  (exists l s',
     @predict_weather_location numpy artifacts today (Some two_targets) 5 tt
       = (Ret (Some l), s') /\
     consecutive_from today 5 l) /\
  (exists s',
     @predict_weather_location numpy artifacts (Calendar.mkdate 9999 12 30)
       (Some two_targets) 3 tt = (Ret None, s')).
Proof.
  assert (Hv : Calendar.valid today = true) by (vm_compute; reflexivity).
  assert (Hr : (Calendar.toordinal today + 5 - 1 <= Calendar._MAXORDINAL)%Z)
    by (vm_compute; discriminate).
  assert (Hv' : Calendar.valid (Calendar.mkdate 9999 12 30) = true) by (vm_compute; reflexivity).
  assert (Hr' : (Calendar._MAXORDINAL < Calendar.toordinal (Calendar.mkdate 9999 12 30) + 3 - 1)%Z)
    by (vm_compute; reflexivity).
  destruct (proj1 (@C5_forecast_days numpy artifacts today 5 Hv) Hr) as [Hsyn Hmodel].
  destruct (proj2 (@C5_forecast_days numpy artifacts (Calendar.mkdate 9999 12 30) 3 Hv') Hr')
    as [_ Hnone].
  split; [exact (Hsyn "pune"%string tt) |]. split.
  - exact (Hmodel two_targets tt two_targets_models two_targets_scalers
             two_targets_calls_return).
  - exact (Hnone (Some two_targets) tt).
Defined.

(** The temperature regressor of [two_targets] predicts 23.456; the field
    holds 23.5. *)
Lemma C6_counterexample :
  exists r rf sc scaled pred,
    @predict_weather_location numpy artifacts today (Some two_targets) 1 tt =
      (Ret (Some [r]), tt) /\
    @models artifacts two_targets !! "temperature_rf"%string = Some rf /\
    @scalers artifacts two_targets !! "temperature"%string = Some sc /\
    @transform artifacts sc (@create_weather_features numpy today (Some "pune"%string)) tt
      = (Ret scaled, tt) /\
    @predict artifacts rf scaled tt = (Ret pred, tt) /\
    ~ temperature r == pred.
Proof.
  eexists _, _, _, _, _. split; [vm_compute; reflexivity |].
  split; [vm_compute; reflexivity |]. split; [vm_compute; reflexivity |].
  split; [vm_compute; reflexivity |]. split; [vm_compute; reflexivity |].
  vm_compute. intros Heq. discriminate Heq.
Qed.

(** Two days with the temperature and humidity targets only; the humidity
    regressor predicts 123.44 and the field is clamped to 100. *)
Lemma C6_model_fields_witness :
  exists l,
    @predict_weather_location numpy artifacts today (Some two_targets) 2 tt =
      (Ret (Some l), tt) /\
    Forall (fun r => 0 <= humidity r <= 100 /\ 0 <= wind_speed r) l.
Proof.
  eexists. split; [vm_compute; reflexivity |].
  refine (proj2 (@C6_model_fields numpy artifacts today two_targets 2 tt tt _ _)).
  vm_compute; reflexivity.
Defined.

End PathExamples.

(** ** Rules for specifications of runs *)

Section HoareRules.
Import Py.
Context {S : Type}.

Lemma hoare_ret {A} (P : S -> Prop) (a : A) (Q : A -> S -> Prop) (E : S -> Prop) :
  (forall s, P s -> Q a s) -> hoare P (ret a) Q E.
Proof. intros HQ s Hs. apply HQ. exact Hs. Qed.

Lemma hoare_lift {A} (P : S -> Prop) (o : outcome A) :
  hoare P (lift o) (fun _ => P) P.
Proof. intros s Hs. unfold lift. destruct o; exact Hs. Qed.

Lemma hoare_get (P : S -> Prop) (E : S -> Prop) : hoare P get (fun a s => a = s /\ P s) E.
Proof. intros s Hs. simpl. auto. Qed.

Lemma hoare_modify (P Q : S -> Prop) (f : S -> S) (E : S -> Prop) :
  (forall s, P s -> Q (f s)) -> hoare P (modify f) (fun _ => Q) E.
Proof. intros Hf s Hs. apply Hf. exact Hs. Qed.

Lemma hoare_bind {A B} (P : S -> Prop) (m : M S A) (R : A -> S -> Prop)
    (k : A -> M S B) (Q : B -> S -> Prop) (E : S -> Prop) :
  hoare P m R E -> (forall a, hoare (R a) (k a) Q E) -> hoare P (bind m k) Q E.
Proof.
  intros Hm Hk s Hs. unfold bind. specialize (Hm s Hs).
  destruct (m s) as [[a | e] s1]; [apply (Hk a s1 Hm) | exact Hm].
Qed.

Lemma hoare_try_except {A} (P : S -> Prop) (m : M S A) (c : exn -> bool)
    (h : exn -> M S A) (Q : A -> S -> Prop) (E' E : S -> Prop) :
  hoare P m Q E' -> (forall e, hoare E' (h e) Q E) -> (forall s, E' s -> E s) ->
  hoare P (try_except m c h) Q E.
Proof.
  intros Hm Hh Hweak s Hs. unfold try_except. specialize (Hm s Hs).
  destruct (m s) as [[a | e] s1]; [exact Hm |].
  destruct (c e); [apply (Hh e s1 Hm) | apply Hweak; exact Hm].
Qed.

Lemma hoare_for_each {A} (I : S -> Prop) (xs : list A) (body : A -> M S unit) (E : S -> Prop) :
  (forall x, In x xs -> hoare I (body x) (fun _ => I) E) ->
  hoare I (for_each xs body) (fun _ => I) E.
Proof.
  induction xs as [| x xs IH]; intros Hb; simpl.
  - apply hoare_ret. auto.
  - eapply hoare_bind; [apply Hb; left; reflexivity |].
    intros u. apply IH. intros y Hy. apply Hb. right. exact Hy.
Qed.

Lemma hoare_weaken {A} (P P' : S -> Prop) (m : M S A) (Q Q' : A -> S -> Prop) (E E' : S -> Prop) :
  hoare P' m Q' E' -> (forall s, P s -> P' s) -> (forall a s, Q' a s -> Q a s) ->
  (forall s, E' s -> E s) -> hoare P m Q E.
Proof.
  intros Hm HP HQ HE s Hs. specialize (Hm s (HP s Hs)).
  destruct (m s) as [[a | e] s1]; auto.
Qed.

End HoareRules.

(** ** Strings *)

Section StringFacts.
Local Open Scope string_scope.

Lemma append_nil_l (s : string) : "" ++ s = s.
Proof. reflexivity. Qed.

Lemma append_cons (c : ascii) (a s : string) : String c a ++ s = String c (a ++ s).
Proof. reflexivity. Qed.

Lemma length_append (a b : string) :
  String.length (a ++ b) = (String.length a + String.length b)%nat.
Proof.
  induction a as [| c a IH]; [reflexivity |].
  rewrite append_cons. cbn [String.length]. rewrite IH. reflexivity.
Qed.

(** Two texts with the same ending appended are equal. *)
Lemma append_inj_r (s a b : string) : a ++ s = b ++ s -> a = b.
Proof.
  revert b. induction a as [| c a IH]; intros [| c' b] Heq.
  - reflexivity.
  - apply (f_equal String.length) in Heq. rewrite !length_append in Heq.
    cbn [String.length] in Heq. lia.
  - apply (f_equal String.length) in Heq. rewrite !length_append in Heq.
    cbn [String.length] in Heq. lia.
  - rewrite !append_cons in Heq. injection Heq as Hc Heq. subst c'. f_equal. apply IH. exact Heq.
Qed.

End StringFacts.

(** ** What the tiers keep true of their dictionaries *)

Section TierSpecs.
Context `{Artifacts}.
Import Py.
Local Open Scope string_scope.
Variable w : world.

Lemma hoare_log (I : frame -> Prop) (e : event) (E : frame -> Prop) :
  dict_only I -> hoare I (log e) (fun _ => I) E.
Proof. intros Hd. apply hoare_modify. intros st Hst. apply Hd. exact Hst. Qed.

Lemma hoare_exists (I : frame -> Prop) (path : string) (E : frame -> Prop) :
  dict_only I -> hoare I (exists_ w path) (fun _ => I) E.
Proof.
  intros Hd. unfold exists_. eapply hoare_bind; [apply hoare_log; exact Hd |].
  intros u. apply hoare_ret. auto.
Qed.

Lemma hoare_read (I : frame -> Prop) (path : string) :
  dict_only I -> hoare I (read w path) (fun _ => I) I.
Proof.
  intros Hd. unfold read. eapply hoare_bind; [apply hoare_log; exact Hd |].
  intros u. apply hoare_lift.
Qed.

Lemma hoare_get_object (I : frame -> Prop) (key : string) :
  dict_only I -> hoare I (get_object w key) (fun _ => I) I.
Proof.
  intros Hd. unfold get_object. eapply hoare_bind; [apply hoare_log; exact Hd |].
  intros u. apply hoare_lift.
Qed.

Lemma paired_insert (st st0 : frame) (target : string) (m sc : pyobj) :
  paired st0 ->
  f_models st = <[target ++ "_rf" := m]> (f_models st0) ->
  f_scalers st = <[target := sc]> (f_scalers st0) ->
  paired st.
Proof.
  intros Hp Hm Hs t. rewrite Hm, Hs, !lookup_insert.
  destruct (decide (target = t)) as [-> | Hne].
  - rewrite decide_True by reflexivity. split; eauto.
  - rewrite decide_False; [apply Hp |]. intros Heq. apply Hne. eapply append_inj_r. exact Heq.
Qed.

Lemma regressor_keys_insert (st st0 : frame) (target : string) (m : pyobj) :
  In target TARGETS -> regressor_keys st0 ->
  f_models st = <[target ++ "_rf" := m]> (f_models st0) ->
  regressor_keys st.
Proof.
  intros Hin Hk Hm k. rewrite Hm, lookup_insert.
  destruct (decide (target ++ "_rf" = k)) as [<- | Hne]; [eauto | apply Hk].
Qed.

Lemma local_inv_dict_only : dict_only local_inv.
Proof. intros st tr Hst. exact Hst. Qed.

Lemma local_mid_dict_only (target : string) : dict_only (local_mid target).
Proof. intros st tr Hst. exact Hst. Qed.

(** One target of the local tier: both artifacts are stored, or neither. *)
Lemma local_target_spec (model_dir target : string) :
  In target TARGETS ->
  hoare local_inv
    (do has_model <- exists_ w (model_dir ++ target ++ "_rf.joblib");
     do has_both <- (if has_model then exists_ w (model_dir ++ target ++ "_scaler.joblib")
                     else ret false);
     if has_both then
       do model_data <- read w (model_dir ++ target ++ "_rf.joblib");
       do model <- lift (joblib_load model_data);
       exec set_model (target ++ "_rf") model;
       do scaler_data <- read w (model_dir ++ target ++ "_scaler.joblib");
       do scaler <- lift (joblib_load scaler_data);
       set_scaler target scaler
     else ret tt)%py
    (fun _ => local_inv) (fun _ => True).
Proof.
  intros Hin.
  eapply hoare_bind; [apply hoare_exists, local_inv_dict_only |]. intros has_model.
  eapply hoare_bind with (R := fun _ => local_inv).
  { destruct has_model; [apply hoare_exists, local_inv_dict_only | apply hoare_ret; intros s Hs; exact Hs]. }
  intros [|]; [| apply hoare_ret; intros s Hs; exact Hs].
  eapply hoare_bind with (R := fun _ => local_inv).
  { eapply hoare_weaken; [apply (hoare_read local_inv), local_inv_dict_only | auto ..]. }
  intros model_data.
  eapply hoare_bind with (R := fun _ => local_inv).
  { eapply hoare_weaken; [apply (hoare_lift local_inv) | auto ..]. }
  intros model.
  eapply hoare_bind with (R := fun _ => local_mid target).
  { apply hoare_modify. intros st Hst. exists st, model. auto. }
  intros u.
  eapply hoare_bind with (R := fun _ => local_mid target).
  { eapply hoare_weaken; [apply (hoare_read (local_mid target)), local_mid_dict_only | auto ..]. }
  intros scaler_data.
  eapply hoare_bind with (R := fun _ => local_mid target).
  { eapply hoare_weaken; [apply (hoare_lift (local_mid target)) | auto ..]. }
  intros scaler.
  apply hoare_modify. intros st (st0 & m & [Hp Hk] & Hm & Hs). split.
  - eapply (paired_insert _ st0); [exact Hp | exact Hm |]. cbn [f_scalers]. rewrite Hs. reflexivity.
  - eapply (regressor_keys_insert _ st0); [exact Hin | exact Hk | exact Hm].
Qed.

Lemma empty_frame_local (tr : list event) : local_inv (mkframe tr ∅ ∅).
Proof.
  split.
  - intros t. cbn [f_models f_scalers]. rewrite !lookup_empty. reflexivity.
  - intros k. cbn [f_models]. rewrite lookup_empty. intros [x Hx]. discriminate.
Qed.

Lemma empty_frame_s3 (tr : list event) : s3_inv (mkframe tr ∅ ∅).
Proof.
  split.
  - intros t. cbn [f_models f_scalers]. rewrite !lookup_empty. intros [x Hx]. discriminate.
  - intros k. cbn [f_models]. rewrite lookup_empty. intros [x Hx]. discriminate.
Qed.

(** The bundle built from a frame whose [models] are not empty. *)
Lemma frame_bundle (st : frame) (info : model_info_t) (city_name : string) :
  regressor_keys st -> bool_decide (f_models st = ∅) = false ->
  tier_bundle city_name (mkbundle (f_models st) (f_scalers st) info city_name).
Proof.
  intros Hk Hne. split; [| split; [exact Hk | reflexivity]].
  cbn [models]. intros Heq. rewrite bool_decide_eq_false in Hne. contradiction.
Qed.

Lemma load_local_model_spec (city_name : string) :
  hoare local_inv (load_local_model w city_name)
    (fun r st => forall b, r = Some b ->
       tier_bundle city_name b /\ (forall t, has_regressor b t = has_scaler b t))
    (fun _ => True).
Proof.
  unfold load_local_model. cbv zeta.
  apply hoare_try_except with (E' := fun _ => True);
    [| intros e; apply hoare_ret; intros s _ b Hb; discriminate | auto].
  eapply hoare_bind; [apply hoare_exists, local_inv_dict_only |]. intros dir_found.
  destruct (negb dir_found); [apply hoare_ret; intros s _ b Hb; discriminate |].
  eapply hoare_bind; [apply hoare_exists, local_inv_dict_only |]. intros info_found.
  destruct (negb info_found); [apply hoare_ret; intros s _ b Hb; discriminate |].
  eapply hoare_bind with (R := fun _ => local_inv).
  { eapply hoare_weaken; [apply (hoare_read local_inv), local_inv_dict_only | auto ..]. }
  intros text.
  eapply hoare_bind with (R := fun _ => local_inv).
  { eapply hoare_weaken; [apply (hoare_lift local_inv) | auto ..]. }
  intros info.
  eapply hoare_bind with (R := fun _ => local_inv).
  { apply hoare_for_each. intros target Hin. apply local_target_spec. exact Hin. }
  intros u.
  eapply hoare_bind; [apply hoare_get |]. intros st.
  destruct (bool_decide (f_models st = ∅)) eqn:Hne;
    apply hoare_ret; intros s [-> [Hp Hk]] b Hb; [discriminate |].
  injection Hb as <-. split; [apply frame_bundle; assumption |].
  intros t. unfold has_regressor, has_scaler. cbn [models scalers].
  apply bool_decide_ext. apply Hp.
Qed.

Lemma s3_inv_dict_only : dict_only s3_inv.
Proof. intros st tr Hst. exact Hst. Qed.

Lemma s3_mid_dict_only (target : string) : dict_only (s3_mid target).
Proof. intros st tr Hst. exact Hst. Qed.

Lemma s3_set_model (target : string) (model : pyobj) (E : frame -> Prop) :
  In target TARGETS ->
  hoare s3_inv (set_model (target ++ "_rf") model) (fun _ => s3_mid target) E.
Proof.
  intros Hin. apply hoare_modify. intros st [Hs Hk]. split; [split |].
  - intros t Ht. cbn [f_models f_scalers] in *. rewrite lookup_insert.
    destruct (decide (target ++ "_rf" = t ++ "_rf")); [eauto | apply Hs; exact Ht].
  - eapply (regressor_keys_insert _ st); [exact Hin | exact Hk | reflexivity].
  - cbn [f_models]. rewrite lookup_insert_eq. eauto.
Qed.

Lemma s3_set_scaler (target : string) (scaler : pyobj) (E : frame -> Prop) :
  hoare (s3_mid target) (set_scaler target scaler) (fun _ => s3_inv) E.
Proof.
  apply hoare_modify. intros st [[Hs Hk] Hm]. split; [| exact Hk].
  intros t. cbn [f_models f_scalers]. rewrite lookup_insert.
  destruct (decide (target = t)) as [<- | Hne]; [intros _; exact Hm | apply Hs].
Qed.

Lemma s3_mid_inv (target : string) (st : frame) : s3_mid target st -> s3_inv st.
Proof. intros [Hinv _]. exact Hinv. Qed.

(** One target of the S3 tier: whatever is fetched or missing, a scaler is
    stored only after its regressor. *)
Lemma s3_target_spec (prefix target : string) :
  In target TARGETS ->
  hoare s3_inv
    (try_except
       (do model_data <- get_object w (prefix ++ target ++ "_rf.joblib");
        do model <- lift (joblib_load model_data);
        exec set_model (target ++ "_rf") model;
        do scaler_data <- get_object w (prefix ++ target ++ "_scaler.joblib");
        do scaler <- lift (joblib_load scaler_data);
        set_scaler target scaler)%py
       is_NoSuchKey (fun _ => ret tt))
    (fun _ => s3_inv) s3_inv.
Proof.
  intros Hin.
  apply hoare_try_except with (E' := s3_inv);
    [| intros e; apply hoare_ret; auto | auto].
  eapply hoare_bind with (R := fun _ => s3_inv).
  { apply (hoare_get_object s3_inv), s3_inv_dict_only. }
  intros model_data.
  eapply hoare_bind with (R := fun _ => s3_inv); [apply (hoare_lift s3_inv) |].
  intros model.
  eapply hoare_bind with (R := fun _ => s3_mid target); [apply s3_set_model; exact Hin |].
  intros u.
  eapply hoare_bind with (R := fun _ => s3_mid target).
  { eapply hoare_weaken;
      [apply (hoare_get_object (s3_mid target)), s3_mid_dict_only | auto ..].
    apply s3_mid_inv. }
  intros scaler_data.
  eapply hoare_bind with (R := fun _ => s3_mid target).
  { eapply hoare_weaken; [apply (hoare_lift (s3_mid target)) | auto ..]. apply s3_mid_inv. }
  intros scaler. apply s3_set_scaler.
Qed.

Lemma load_s3_models_spec (city_name : string) :
  hoare s3_inv (load_s3_models w city_name)
    (fun r st => forall b, r = Some b ->
       tier_bundle city_name b /\
       (forall t, has_scaler b t = true -> has_regressor b t = true))
    (fun _ => True).
Proof.
  unfold load_s3_models. cbv zeta.
  apply hoare_try_except with (E' := fun _ => True);
    [| intros e; apply hoare_ret; intros s _ b Hb; discriminate | auto].
  eapply hoare_bind with (R := fun _ => s3_inv); [apply hoare_log, s3_inv_dict_only |].
  intros u.
  eapply hoare_bind with (R := fun _ => s3_inv).
  { eapply hoare_weaken; [apply (hoare_lift s3_inv) | auto ..]. }
  intros u'.
  eapply hoare_bind with (R := fun _ => s3_inv).
  { eapply hoare_weaken with (P' := s3_inv) (Q' := fun _ => s3_inv) (E' := s3_inv); [| auto ..].
    apply hoare_try_except with (E' := s3_inv); [| intros e; apply hoare_ret; auto | auto].
    eapply hoare_bind with (R := fun _ => s3_inv).
    { apply (hoare_get_object s3_inv), s3_inv_dict_only. }
    intros body.
    eapply hoare_bind with (R := fun _ => s3_inv); [apply (hoare_lift s3_inv) |].
    intros info. apply hoare_ret. auto. }
  intros [info |]; [| apply hoare_ret; intros s _ b Hb; discriminate].
  eapply hoare_bind with (R := fun _ => s3_inv).
  { eapply hoare_weaken with (P' := s3_inv) (Q' := fun _ => s3_inv) (E' := s3_inv); [| auto ..].
    apply hoare_for_each. intros target Hin. apply s3_target_spec. exact Hin. }
  intros u''.
  eapply hoare_bind; [apply hoare_get |]. intros st.
  destruct (bool_decide (f_models st = ∅)) eqn:Hne;
    apply hoare_ret; intros s [-> [Hs Hk]] b Hb; [discriminate |].
  injection Hb as <-. split; [apply frame_bundle; assumption |].
  intros t. unfold has_regressor, has_scaler. cbn [models scalers].
  rewrite !bool_decide_eq_true. apply Hs.
Qed.

End TierSpecs.

(** ** Bundles that the tiers return *)

Section TierBundles.
Context `{Artifacts}.
Import Py.
Local Open Scope string_scope.
Variable w : world.

Lemma call_Ret {A} (tier : M frame A) (tr tr' : list event) (a : A) :
  call tier tr = (Ret a, tr') -> exists st, tier (mkframe tr ∅ ∅) = (Ret a, st).
Proof.
  unfold call. destruct (tier (mkframe tr ∅ ∅)) as [o st]. intros Heq.
  exists st. congruence.
Qed.

(** A bundle with a regressor key of a target that also has its scaler has a
    usable target. *)
Lemma usable_targets_nonempty (city_name : string) (b : bundle) :
  tier_bundle city_name b -> (forall t, has_regressor b t = has_scaler b t) ->
  usable_targets b <> [].
Proof.
  intros (Hne & Hk & _) Hpair.
  destruct (map_choose _ Hne) as (k & v & Hkv).
  destruct (Hk k (mk_is_Some _ _ Hkv)) as (t & Hin & ->).
  assert (Hr : has_regressor b t = true).
  { unfold has_regressor. apply bool_decide_eq_true. eauto. }
  assert (Ht : t ∈ usable_targets b).
  { unfold usable_targets. apply list_elem_of_filter. split.
    - rewrite <- Hpair, Hr. exact I.
    - apply list_elem_of_In. exact Hin. }
  intros Hnil. rewrite Hnil in Ht. inversion Ht.
Qed.

(** X1. A bundle that the local tier returns has, for every target, its
    regressor exactly when it has its scaler; it has at least one usable
    target, and it names the requested city. *)
Theorem X1_local_bundle_paired (city_name : string) (tr tr' : list event) (b : bundle) :
  call (load_local_model w city_name) tr = (Ret (Some b), tr') ->
  (forall t, has_regressor b t = has_scaler b t) /\
  usable_targets b <> [] /\
  city b = city_name.
Proof.
  intros Hcall. apply call_Ret in Hcall as (st & Hrun).
  pose proof (load_local_model_spec w city_name _ (empty_frame_local tr)) as Hspec.
  rewrite Hrun in Hspec. destruct (Hspec b eq_refl) as [Hb Hpair].
  split; [exact Hpair |]. split; [eapply usable_targets_nonempty; eauto |].
  destruct Hb as (_ & _ & Hc). exact Hc.
Qed.

(** X2. A bundle that the S3 tier returns never holds a scaler without its
    regressor; its models are not empty, their keys are regressor keys of the
    four targets, and it names the requested city. *)
Theorem X2_s3_bundle_scaler_has_regressor (city_name : string) (tr tr' : list event)
    (b : bundle) :
  call (load_s3_models w city_name) tr = (Ret (Some b), tr') ->
  (forall t, has_scaler b t = true -> has_regressor b t = true) /\
  tier_bundle city_name b.
Proof.
  intros Hcall. apply call_Ret in Hcall as (st & Hrun).
  pose proof (load_s3_models_spec w city_name _ (empty_frame_s3 tr)) as Hspec.
  rewrite Hrun in Hspec. destruct (Hspec b eq_refl) as [Hb Hs]. auto.
Qed.

(** X3. Whatever the stores hold, a bundle that resolution returns names the
    requested city, has models that are not empty and keyed by the four
    targets' regressor keys, and holds no scaler without its regressor. *)
Theorem X3_resolved_bundle (city_name : string) (tr tr' : list event) (b : bundle) :
  load_location_model w city_name tr = (Ret (Some b), tr') ->
  tier_bundle city_name b /\
  (forall t, has_scaler b t = true -> has_regressor b t = true).
Proof.
  unfold load_location_model. intros Hrun. apply try_except_Some in Hrun.
  apply bind_Ret in Hrun as (r1 & tr1 & Hs3 & Hrun).
  destruct r1 as [b1 |].
  - apply Ret_inj in Hrun as [Hb _]. assert (b1 = b) by congruence. subst b1.
    apply call_Ret in Hs3 as (st & Hrun').
    pose proof (load_s3_models_spec w city_name _ (empty_frame_s3 tr)) as Hspec.
    rewrite Hrun' in Hspec. destruct (Hspec b eq_refl) as [Hb' Hs]. auto.
  - apply bind_Ret in Hrun as (r2 & tr2 & Hlocal & Hrun).
    destruct r2 as [b2 |]; apply Ret_inj in Hrun as [Hb _]; [| discriminate].
    assert (b2 = b) by congruence. subst b2.
    apply call_Ret in Hlocal as (st & Hrun').
    pose proof (load_local_model_spec w city_name _ (empty_frame_local tr1)) as Hspec.
    rewrite Hrun' in Hspec. destruct (Hspec b eq_refl) as [Hb' Hpair].
    split; [exact Hb' |]. intros t. rewrite Hpair. auto.
Qed.

End TierBundles.

(** pune's local directory holds every file: the bundle is complete. *)
Lemma X1_local_bundle_paired_witness :
  exists b tr',
    @call Demo.artifacts _ (@load_local_model Demo.artifacts Demo.local_only "pune") [] =
      (Py.Ret (Some b), tr') /\
    @usable_targets Demo.artifacts b <> [].
Proof.
  eexists _, _. split; [vm_compute; reflexivity |].
  refine (proj1 (proj2 (@X1_local_bundle_paired Demo.artifacts Demo.local_only "pune" [] _ _ _))).
  vm_compute; reflexivity.
Defined.

(** The bucket without the temperature scaler. *)
Lemma X2_s3_bundle_scaler_has_regressor_witness :
  exists b tr',
    @call Demo.artifacts _ (@load_s3_models Demo.artifacts Demo.s3_without_scaler "mumbai") [] =
      (Py.Ret (Some b), tr') /\
    @tier_bundle Demo.artifacts "mumbai" b.
Proof.
  eexists _, _. split; [vm_compute; reflexivity |].
  refine (proj2 (@X2_s3_bundle_scaler_has_regressor Demo.artifacts Demo.s3_without_scaler
                   "mumbai" [] _ _ _)).
  vm_compute; reflexivity.
Defined.

(** No S3 access, pune on disk: resolution returns the local bundle. *)
Lemma X3_resolved_bundle_witness :
  exists b tr',
    @load_location_model Demo.artifacts Demo.local_only "pune" [] = (Py.Ret (Some b), tr') /\
    @tier_bundle Demo.artifacts "pune" b.
Proof.
  eexists _, _. split; [vm_compute; reflexivity |].
  refine (proj1 (@X3_resolved_bundle Demo.artifacts Demo.local_only "pune" [] _ _ _)).
  vm_compute; reflexivity.
Defined.

(** ** Ranges of the synthetic forecast *)

Section SyntheticRanges.
Context `{Numpy}.
Import Py Num.
Local Open Scope Q_scope.

(** Rounding to one decimal keeps a range whose ends are whole numbers. *)
Lemma round1_range (x : Q) (lo hi : Z) :
  inject_Z lo <= x <= inject_Z hi -> inject_Z lo <= round1 x <= inject_Z hi.
Proof.
  intros [Hlo Hhi].
  pose proof (round1_ge x (10 * lo)) as Hg. pose proof (round1_le x (10 * hi)) as Hl.
  assert (Elo : inject_Z (10 * lo) / 10 == inject_Z lo).
  { rewrite inject_Z_mult. field. }
  assert (Ehi : inject_Z (10 * hi) / 10 == inject_Z hi).
  { rewrite inject_Z_mult. field. }
  rewrite Elo in Hg. rewrite Ehi in Hl. split; [apply Hg | apply Hl]; assumption.
Qed.

Lemma clip_round_range (x : Q) (lo hi : Z) :
  (lo <= hi)%Z -> inject_Z lo <= round1 (np_clip x (inject_Z lo) (inject_Z hi)) <= inject_Z hi.
Proof.
  intros Hle. apply round1_range. apply np_clip_bounds. rewrite <- Zle_Qle. exact Hle.
Qed.

Lemma fallback_day_ranges (info : Climate.profile) (d : Calendar.date) (r : ForecastDay) :
  fallback_day info d r ->
  15 <= temperature r <= 45 /\ 20 <= humidity r <= 95 /\
  980 <= pressure r <= 1020 /\ 0 <= wind_speed r <= 20.
Proof.
  intros (t & h & p & w & ->). cbn [temperature humidity pressure wind_speed].
  repeat split.
  - apply (clip_round_range _ 15 45). lia.
  - apply (clip_round_range _ 15 45). lia.
  - apply (clip_round_range _ 20 95). lia.
  - apply (clip_round_range _ 20 95). lia.
  - apply (clip_round_range _ 980 1020). lia.
  - apply (clip_round_range _ 980 1020). lia.
  - apply (clip_round_range _ 0 20). lia.
  - apply (clip_round_range _ 0 20). lia.
Qed.

(** X4. Every record of a synthetic forecast, for any city and any noise,
    has its temperature in [15, 45], its humidity in [20, 95], its pressure
    in [980, 1020] and its wind speed in [0, 20]. *)
Theorem X4_synthetic_ranges (now : Calendar.date) (city : string) (days : Z)
    (g g' : Generator) (l : list ForecastDay) :
  generate_realistic_weather_fallback now city days g = (Ret (Some l), g') ->
  Forall (fun r => 15 <= temperature r <= 45 /\ 20 <= humidity r <= 95 /\
                   980 <= pressure r <= 1020 /\ 0 <= wind_speed r <= 20) l.
Proof.
  intros Hrun. apply fallback_records in Hrun.
  induction Hrun as [| i r ixs rs (d & _ & Hday) _ IH]; constructor; [| exact IH].
  eapply fallback_day_ranges. exact Hday.
Qed.

(** X5. For a city whose climate type is arid and not tropical, every
    synthetic record has humidity at most 50 and temperature in [25, 45]. *)
Theorem X5_arid_ranges (now : Calendar.date) (city : string) (days : Z)
    (g g' : Generator) (l : list ForecastDay) :
  Climate.is_tropical (Climate.get_city_climate_info city) = false ->
  Climate.is_arid (Climate.get_city_climate_info city) = true ->
  generate_realistic_weather_fallback now city days g = (Ret (Some l), g') ->
  Forall (fun r => humidity r <= 50 /\ 25 <= temperature r <= 45) l.
Proof.
  intros Htrop Harid Hrun. apply fallback_records in Hrun.
  induction Hrun as [| i r ixs rs (d & _ & Hday) _ IH]; constructor; [| exact IH].
  destruct Hday as (t & h & p & w & ->). unfold climate_adjust. rewrite Htrop, Harid.
  cbn [fst snd temperature humidity].
  destruct (py_min_spec h 50) as (_ & H50 & _).
  destruct (np_clip_bounds t 25 45) as [H25 H45]; [lra |].
  split; [| split].
  - pose proof (round1_le (np_clip (py_min h 50) 20 95) 500) as Hr.
    change (inject_Z 500 / 10) with (500 # 10) in Hr.
    assert (np_clip (py_min h 50) 20 95 <= 50) by (apply np_clip_keeps_ceiling; lra). lra.
  - pose proof (round1_ge (np_clip (np_clip t 25 45) 15 45) 250) as Hr.
    change (inject_Z 250 / 10) with (250 # 10) in Hr.
    assert (25 <= np_clip (np_clip t 25 45) 15 45) by (apply np_clip_keeps_floor; lra). lra.
  - apply (clip_round_range _ 15 45). lia.
Qed.

(** X6. For a city whose climate type is temperate and neither tropical nor
    arid, every synthetic record has temperature in [15, 35] and humidity in
    [40, 80]. *)
Theorem X6_temperate_ranges (now : Calendar.date) (city : string) (days : Z)
    (g g' : Generator) (l : list ForecastDay) :
  Climate.is_tropical (Climate.get_city_climate_info city) = false ->
  Climate.is_arid (Climate.get_city_climate_info city) = false ->
  Climate.is_temperate (Climate.get_city_climate_info city) = true ->
  generate_realistic_weather_fallback now city days g = (Ret (Some l), g') ->
  Forall (fun r => 15 <= temperature r <= 35 /\ 40 <= humidity r <= 80) l.
Proof.
  intros Htrop Harid Htemp Hrun. apply fallback_records in Hrun.
  induction Hrun as [| i r ixs rs (d & _ & Hday) _ IH]; constructor; [| exact IH].
  destruct Hday as (t & h & p & w & ->). unfold climate_adjust. rewrite Htrop, Harid, Htemp.
  cbn [fst snd temperature humidity].
  destruct (np_clip_bounds t 15 35) as [H15 H35]; [lra |].
  destruct (np_clip_bounds h 40 80) as [H40 H80]; [lra |].
  assert (np_clip (np_clip t 15 35) 15 45 <= 35) by (apply np_clip_keeps_ceiling; lra).
  assert (15 <= np_clip (np_clip t 15 35) 15 45) by (apply np_clip_keeps_floor; lra).
  assert (np_clip (np_clip h 40 80) 20 95 <= 80) by (apply np_clip_keeps_ceiling; lra).
  assert (40 <= np_clip (np_clip h 40 80) 20 95) by (apply np_clip_keeps_floor; lra).
  repeat split.
  - apply (round1_range _ 15 35). split; assumption.
  - apply (round1_range _ 15 35). split; assumption.
  - apply (round1_range _ 40 80). split; assumption.
  - apply (round1_range _ 40 80). split; assumption.
Qed.

End SyntheticRanges.

Section SyntheticRangesExamples.
Import Py Demo.
Local Open Scope Q_scope.

Lemma X4_synthetic_ranges_witness :
  exists l,
    @generate_realistic_weather_fallback numpy today "kolkata" 3 tt = (Ret (Some l), tt) /\
    Forall (fun r => 15 <= temperature r <= 45 /\ 20 <= humidity r <= 95 /\
                     980 <= pressure r <= 1020 /\ 0 <= wind_speed r <= 20) l.
Proof.
  eexists. split; [vm_compute; reflexivity |].
  apply (@X4_synthetic_ranges numpy today "kolkata" 3 tt tt). vm_compute; reflexivity.
Defined.

Lemma X5_arid_ranges_witness :
  Climate.is_arid (Climate.get_city_climate_info "jaipur") = true /\
  exists l,
    @generate_realistic_weather_fallback numpy today "jaipur" 3 tt = (Ret (Some l), tt) /\
    Forall (fun r => humidity r <= 50 /\ 25 <= temperature r <= 45) l.
Proof.
  split; [vm_compute; reflexivity |].
  eexists. split; [vm_compute; reflexivity |].
  apply (@X5_arid_ranges numpy today "jaipur" 3 tt tt); vm_compute; reflexivity.
Defined.

Lemma X6_temperate_ranges_witness :
  Climate.is_temperate (Climate.get_city_climate_info "bangalore") = true /\
  exists l,
    @generate_realistic_weather_fallback numpy today "bangalore" 3 tt = (Ret (Some l), tt) /\
    Forall (fun r => 15 <= temperature r <= 35 /\ 40 <= humidity r <= 80) l.
Proof.
  split; [vm_compute; reflexivity |].
  eexists. split; [vm_compute; reflexivity |].
  apply (@X6_temperate_ranges numpy today "bangalore" 3 tt tt); vm_compute; reflexivity.
Defined.

End SyntheticRangesExamples.

(** ** When the paths give no forecast *)

Section NoForecast.
Context `{Numpy} `{Artifacts}.
Import Py.

(** X7. When the horizon reaches past the last day of the calendar
    (9999-12-31), both paths return None, for every city, bundle and state:
    never a shorter list. *)
Theorem X7_overflow_gives_none (now : Calendar.date) (days : Z) :
  (1 <= days)%Z ->
  (Calendar._MAXORDINAL < Calendar.toordinal now + days - 1)%Z ->
  (forall city g, exists g',
     generate_realistic_weather_fallback now city days g = (Ret None, g')) /\
  (forall (md : option bundle) (s : process), exists s',
     predict_weather_location now md days s = (Ret None, s')).
Proof.
  intros Hdays Hover.
  assert (Hi : exists i, (0 <= i < days)%Z /\
                         (Calendar._MAXORDINAL < Calendar.toordinal now + i)%Z)
    by (exists (days - 1)%Z; split; lia).
  split.
  - intros city g. apply fallback_overflow. exact Hi.
  - intros md s. apply predict_overflow. exact Hi.
Qed.

(** X8. The model-based path never raises: it returns a forecast or None.
    It returns a forecast only when it is given a bundle whose models and
    scalers are both non-empty; and for a horizon inside the calendar and a
    bundle whose scalers and regressors do not raise, it returns one
    whenever it is given such a bundle. *)
Theorem X8_predict_guard (now : Calendar.date) (md : option bundle)
    (days : Z) (s : process) :
  Calendar.valid now = true ->
  (Calendar.toordinal now + days - 1 <= Calendar._MAXORDINAL)%Z ->
  (forall b, md = Some b -> calls_return b) ->
  (exists r s', predict_weather_location now md days s = (Ret r, s')) /\
  ((exists l s', predict_weather_location now md days s = (Ret (Some l), s')) <->
   (exists b, md = Some b /\ models b <> ∅ /\ scalers b <> ∅)).
Proof.
  intros Hv Hlast Hcalls. pose proof (toordinal_range now Hv) as Hnow. split; [| split].
  - unfold predict_weather_location. rewrite try_except_Exception.
    match goal with |- context [match ?m with _ => _ end] => destruct m as [[r | e] s1] end;
      eexists _, _; reflexivity.
  - intros (l & s' & Hrun). unfold predict_weather_location in Hrun.
    apply try_except_Some in Hrun. destruct md as [b |].
    + exists b. split; [reflexivity |]. cbv beta iota zeta in Hrun.
      destruct (bool_decide (models b = ∅)) eqn:Em.
      { apply Ret_inj in Hrun as [Hrun _]. discriminate. }
      destruct (bool_decide (scalers b = ∅)) eqn:Es.
      { apply Ret_inj in Hrun as [Hrun _]. discriminate. }
      rewrite bool_decide_eq_false in Em, Es. auto.
    + apply Ret_inj in Hrun as [Hrun _]. discriminate.
  - intros (b & -> & Hm & Hs).
    apply predict_returns; [exact Hm | exact Hs | apply Hcalls; reflexivity |].
    intros i Hi. lia.
Qed.

End NoForecast.

Section NoForecastExamples.
Import Py Demo.

(** Three days from 9999-12-30: the third day is past the calendar. *)
Lemma X7_overflow_gives_none_witness :
  exists g' s',
    @generate_realistic_weather_fallback numpy (Calendar.mkdate 9999 12 30) "mumbai" 3 tt
      = (Ret None, g') /\
    @predict_weather_location numpy artifacts (Calendar.mkdate 9999 12 30)
      (Some two_targets) 3 tt = (Ret None, s').
Proof.
  destruct (@X7_overflow_gives_none numpy artifacts (Calendar.mkdate 9999 12 30) 3)
    as [Hsyn Hmodel]; [vm_compute; discriminate | vm_compute; reflexivity |].
  destruct (Hsyn "mumbai"%string tt) as [g' Hg].
  destruct (Hmodel (Some two_targets) tt) as [s' Hs].
  exists g', s'. split; assumption.
Defined.

Lemma X8_predict_guard_witness :
  exists l s',
    @predict_weather_location numpy artifacts today (Some two_targets) 3 tt
      = (Ret (Some l), s').
Proof.
  apply (proj2 (proj2 (@X8_predict_guard numpy artifacts today (Some two_targets) 3 tt
                  ltac:(vm_compute; reflexivity) ltac:(vm_compute; discriminate)
                  ltac:(intros b [= <-]; exact two_targets_calls_return)))).
  exists two_targets. split; [reflexivity |]. split.
  - exact two_targets_models.
  - exact two_targets_scalers.
Defined.

End NoForecastExamples.
